(** * Care-Match synthetic data generator: a shallow embedding of
      [synthetic.py] ([CarePortalDataGenerator]) and its properties.

    The generator draws every random value from Python's process-wide
    [random] module and may raise; both effects are made explicit here by
    a state-and-exception monad over the generator state.  Tables
    ([pd.DataFrame] built from a list of dicts) are lists of records, in
    row order. *)

From Stdlib Require Import ZArith Lia Ascii.
From stdpp Require Import base list strings pretty.

Open Scope Z_scope.

(** * The program *)

(** ** Exceptions and the generator state *)

(** The Python exceptions the modelled code can raise. *)
Inductive exn : Type := KeyError | IndexError | ValueError.

Inductive res (A : Type) : Type :=
| Ok (a : A)
| Raise (e : exn).
Arguments Ok {A} a.
Arguments Raise {A} e.

(** State of the shared [random] generator.  CPython's generator is a
    deterministic state machine: a draw is a function of the state, and so
    is the state after the draw.  The state is kept as the sequence of raw
    values the generator will deliver ([tape]) and the number of draws made
    so far ([pos]).  Every sequence of in-range results is delivered by
    some tape, so a property proved for all states holds for every run. *)
Record rng : Type := { tape : nat -> Z; pos : nat }.

Definition M (A : Type) : Type := rng -> res (A * rng).

Definition ret {A} (a : A) : M A := fun g => Ok (a, g).

Definition bind {A B} (m : M A) (k : A -> M B) : M B :=
  fun g => match m g with
           | Ok (a, g') => k a g'
           | Raise e => Raise e
           end.

Definition raise {A} (e : exn) : M A := fun _ => Raise e.

Notation "x <- m ;; k" := (bind m (fun x => k))
  (at level 62, m at level 50, right associativity).

(** [for x in xs: acc.append(body)], where the body may read the list
    built so far (as [len(fulfillments)] does). *)
Fixpoint for_append {A B} (xs : list A) (body : list B -> A -> M B)
    (acc : list B) : M (list B) :=
  match xs with
  | [] => ret acc
  | x :: xs' => b <- body acc x ;; for_append xs' body (acc ++ [b])
  end.

(** [range(1, n + 1)] *)
Definition range1 (n : nat) : list nat := seq 1 n.

(** ** The [random] module *)

Module random.

(** One raw draw. *)
Definition next_raw : M Z :=
  fun g => Ok (tape g (pos g), {| tape := tape g; pos := S (pos g) |}).

(** [Random._randbelow(n)] for [n > 0]: an integer in [0, n). *)
Definition randbelow (n : Z) : M Z :=
  r <- next_raw ;; ret (r mod n).

(** [random.randint(a, b)] is [randrange(a, b + 1)]: [a + _randbelow(b + 1 - a)],
    [ValueError] on an empty range. *)
Definition randint (a b : Z) : M Z :=
  if 0 <? b + 1 - a
  then j <- randbelow (b + 1 - a) ;; ret (a + j)
  else raise ValueError.

(** [random.choice(seq)]: [seq[_randbelow(len(seq))]], [IndexError] on an
    empty sequence. *)
Definition choice {A} (l : list A) : M A :=
  match l with
  | [] => raise IndexError
  | x :: _ =>
      j <- randbelow (Z.of_nat (length l)) ;;
      ret (nth (Z.to_nat j) l x)
  end.

(** The selection loop of [random.sample]:
    [j = randbelow(n - i); result[i] = pool[j]; pool[j] = pool[n - i - 1]].
    [m] is [n - i], the number of pool slots still live. *)
Fixpoint sample_loop {A} (d : A) (pool : list A) (m k : nat) : M (list A) :=
  match k with
  | O => ret []
  | S k' =>
      j <- randbelow (Z.of_nat m) ;;
      let x := nth (Z.to_nat j) pool d in
      let pool' := <[Z.to_nat j := nth (m - 1) pool d]> pool in
      rest <- sample_loop d pool' (m - 1) k' ;;
      ret (x :: rest)
  end.

(** [random.sample(population, k)] on the branch CPython takes for a
    population of at most 21 elements and [k <= 5] (pool tracking); the
    one call site samples 1 to 3 of the 8 category names.
    [ValueError] when [k] exceeds the population. *)
Definition sample {A} (population : list A) (k : nat) : M (list A) :=
  match population with
  | [] => if (k =? 0)%nat then ret [] else raise ValueError
  | d :: _ =>
      if (k <=? length population)%nat
      then sample_loop d population (length population) k
      else raise ValueError
  end.

(** A float in [0, 1) with a 53-bit significand, kept exactly as the
    dyadic rational [num / 2 ^ exp2]. *)
Record dyadic : Type := { num : Z; exp2 : Z }.

(** [random.random()]: [k / 2 ^ 53] with [0 <= k < 2 ^ 53]. *)
Definition random : M dyadic :=
  r <- next_raw ;; ret {| num := r mod 2 ^ 53; exp2 := 53 |}.

(** [x > y] on floats held exactly. *)
Definition gt (x y : dyadic) : bool :=
  num y * 2 ^ exp2 x <? num x * 2 ^ exp2 y.

(** The doubles written [0.1] and [0.7] in the source. *)
Definition float_0_1 : dyadic := {| num := 3602879701896397; exp2 := 55 |}.
Definition float_0_7 : dyadic := {| num := 6305039478318694; exp2 := 53 |}.

End random.

(** ** Strings *)

(** [str(i)] for an integer. *)
Definition str_nat (i : nat) : string := pretty i.
Definition str_Z (i : Z) : string := pretty i.

(** [s.zfill(width)] for a string without a sign. *)
Definition zfill (width : nat) (s : string) : string :=
  String.concat "" (replicate (width - String.length s) "0") +:+ s.

(** [sep.join(l)] *)
Definition join (sep : string) (l : list string) : string :=
  String.concat sep l.

(** [s.split(sep)] for a one-character separator: the reading of a
    [";"]-joined field. *)
Fixpoint split (sep : Ascii.ascii) (s : string) : list string :=
  match s with
  | EmptyString => [EmptyString]
  | String c s' =>
      if Ascii.eqb c sep then EmptyString :: split sep s'
      else match split sep s' with
           | [] => [String c EmptyString]
           | w :: ws => String c w :: ws
           end
  end.

(** [l[i]]: [IndexError] when [i] is out of range. *)
Definition getindex {A} (l : list A) (i : nat) : M A :=
  match l !! i with
  | Some x => ret x
  | None => raise IndexError
  end.

(** [x in l] for strings. *)
Definition isin (x : string) (l : list string) : bool :=
  existsb (String.eqb x) l.

(** [chr(n)] as a one-character string. *)
Definition chr (n : nat) : string := String (Ascii.ascii_of_nat n) EmptyString.

(** ** Dates and timestamps *)

Module calendar.

(** Days from 1970-01-01 to the Gregorian date [y-m-d]. *)
Definition days_from_civil (y m d : Z) : Z :=
  let y' := if m <=? 2 then y - 1 else y in
  let era := y' / 400 in
  let yoe := y' - era * 400 in
  let mp := if 2 <? m then m - 3 else m + 9 in
  let doy := (153 * mp + 2) / 5 + d - 1 in
  let doe := yoe * 365 + yoe / 4 - yoe / 100 + doy in
  era * 146097 + doe - 719468.

(** The Gregorian date [(y, m, d)] that lies [z] days after 1970-01-01. *)
Definition civil_from_days (z : Z) : Z * Z * Z :=
  let z := z + 719468 in
  let era := z / 146097 in
  let doe := z - era * 146097 in
  let yoe := (doe - doe / 1460 + doe / 36524 - doe / 146096) / 365 in
  let y := yoe + era * 400 in
  let doy := doe - (365 * yoe + yoe / 4 - yoe / 100) in
  let mp := (5 * doy + 2) / 153 in
  let d := doy - (153 * mp + 2) / 5 + 1 in
  let m := if mp <? 10 then mp + 3 else mp - 9 in
  (if m <=? 2 then y + 1 else y, m, d).

Definition is_leap (y : Z) : bool :=
  (y mod 4 =? 0) && (negb (y mod 100 =? 0) || (y mod 400 =? 0)).

Definition days_in_month (y m : Z) : Z :=
  if m =? 2 then (if is_leap y then 29 else 28)
  else if (m =? 4) || (m =? 6) || (m =? 9) || (m =? 11) then 30
  else 31.

(** A [datetime] whose minutes and seconds are zero, as every datetime of
    the generator is: whole hours since 1970-01-01 00:00. *)
Definition datetime (y m d : Z) : Z := 24 * days_from_civil y m d.
Definition timedelta_days (d : Z) : Z := 24 * d.
Definition timedelta_hours (h : Z) : Z := h.

(** The ["%Y-%m-%d"] rendering of the date [z] days after 1970-01-01. *)
Definition format_day (z : Z) : string :=
  match civil_from_days z with
  | (y, m, d) =>
      zfill 4 (str_Z y) +:+ "-" +:+ zfill 2 (str_Z m) +:+ "-" +:+ zfill 2 (str_Z d)
  end.

(** [t.strftime("%Y-%m-%d")]: the calendar date, the hour is dropped. *)
Definition strftime_ymd (t : Z) : string := format_day (t / 24).

Definition digit (c : Ascii.ascii) : option Z :=
  let n := Ascii.nat_of_ascii c in
  if ((48 <=? n) && (n <=? 57))%nat then Some (Z.of_nat (n - 48)) else None.

Fixpoint digits (s : string) (acc : Z) : option Z :=
  match s with
  | EmptyString => Some acc
  | String c s' =>
      match digit c with
      | Some d => digits s' (10 * acc + d)
      | None => None
      end
  end.

Definition parse_ymd (s : string) : option (Z * Z * Z) :=
  if (String.length s =? 10)%nat
     && String.eqb (String.substring 4 1 s) "-"
     && String.eqb (String.substring 7 1 s) "-"
  then
    match digits (String.substring 0 4 s) 0,
          digits (String.substring 5 2 s) 0,
          digits (String.substring 8 2 s) 0 with
    | Some y, Some m, Some d => Some (y, m, d)
    | _, _, _ => None
    end
  else None.

(** The [pd.Timestamp] that [pd.to_datetime] gives for a ["YYYY-MM-DD"]
    string: midnight of that date, in seconds since 1970-01-01.  The
    years are those every pandas [Timestamp] can hold.  [None] stands
    for a string outside this form: the generator writes no other, and
    the further spellings pandas accepts are left out of the model. *)
Definition to_timestamp (s : string) : option Z :=
  match parse_ymd s with
  | Some (y, m, d) =>
      if (1678 <=? y) && (y <=? 2261) && (1 <=? m) && (m <=? 12)
         && (1 <=? d) && (d <=? days_in_month y m)
      then Some (86400 * days_from_civil y m d)
      else None
  | None => None
  end.

End calendar.

(** [pd.to_datetime(v)] on a cell: [None] gives [NaT] (here [None]), a
    string that does not parse raises. *)
Definition pd_to_datetime (v : option string) : M (option Z) :=
  match v with
  | None => ret None
  | Some s =>
      match calendar.to_timestamp s with
      | Some t => ret (Some t)
      | None => raise ValueError
      end
  end.

(** [int((a - b).total_seconds() / 3600)]: the difference in whole hours,
    truncated toward zero.  With [NaT] on either side the difference is
    [NaT], its [total_seconds()] is [nan], and [int] raises. *)
Definition whole_hours (a b : option Z) : M Z :=
  match a, b with
  | Some x, Some y => ret ((x - y) ÷ 3600)
  | _, _ => raise ValueError
  end.

(** ** Tables as [pd.DataFrame] *)

(** [df[col].tolist()] on the frame [pd.DataFrame(rows)] builds from the
    list [df] of its rows: built from an empty list the frame has no
    columns, and the lookup raises [KeyError].  A frame that keeps its
    columns and holds no row is not such a list; it is [Rows []] of
    [frame] further down, where [frame_column] gives its empty column. *)
Definition column {A B} (col : A -> B) (df : list A) : M (list B) :=
  match df with
  | [] => raise KeyError
  | _ :: _ => ret (map col df)
  end.

(** [df[mask]] followed by [iterrows()]: the retained rows with their
    labels in the original [RangeIndex]. *)
Definition select_rows {A} (mask : A -> bool) (df : list A) : list (nat * A) :=
  filter (fun p => mask (snd p) = true) (zip (seq 0 (length df)) df).

(** ** The fixed tables of [__init__] *)

Module City.
Record t : Type := { name : string; state : string; zips : list string }.
End City.

(** A dict in insertion order. *)
Definition keys {V} (d : list (string * V)) : list string := map fst d.

Fixpoint getitem {V} (d : list (string * V)) (k : string) : M V :=
  match d with
  | [] => raise KeyError
  | (k', v) :: d' => if String.eqb k k' then ret v else getitem d' k
  end.

Definition need_categories : list (string * list string) :=
  [ ("Housing", ["bed"; "mattress"; "bedding"; "furniture"; "rent assistance"]);
    ("Food", ["groceries"; "meal"; "food pantry items"; "baby formula"]);
    ("Clothing", ["winter coat"; "shoes"; "school clothes"; "baby clothes"]);
    ("School Supplies",
      ["backpack"; "notebooks"; "pencils"; "calculator"; "school uniforms"]);
    ("Transportation", ["gas card"; "bus pass"; "car repair"; "uber/lyft credit"]);
    ("Childcare", ["diapers"; "wipes"; "car seat"; "crib"; "stroller"]);
    ("Utilities", ["electric bill"; "water bill"; "heating assistance"]);
    ("Medical", ["prescription assistance"; "medical supplies"; "first aid"]) ]%string.

Definition urgency_levels : list string :=
  ["Low"; "Medium"; "High"; "Critical"]%string.

Definition cities : list City.t :=
  [ {| City.name := "Atlanta"; City.state := "GA";
       City.zips := ["30301"; "30302"; "30303"; "30304"; "30305"] |};
    {| City.name := "Charlotte"; City.state := "NC";
       City.zips := ["28201"; "28202"; "28203"; "28204"; "28205"] |};
    {| City.name := "Nashville"; City.state := "TN";
       City.zips := ["37201"; "37202"; "37203"; "37204"; "37205"] |};
    {| City.name := "Birmingham"; City.state := "AL";
       City.zips := ["35201"; "35202"; "35203"; "35204"; "35205"] |} ]%string.

Definition church_names : list string :=
  [ "Grace Community Church"; "First Baptist Church"; "Hope Fellowship";
    "New Life Church"; "Trinity Methodist"; "Cornerstone Church";
    "Redemption Church"; "Faith Assembly"; "Crossroads Church";
    "Harvest Church"; "The Bridge Church"; "Lighthouse Church" ]%string.

Definition statuses : list string :=
  ["Requested"; "Matched"; "In Progress"; "Fulfilled"; "Closed"; "Cancelled"]%string.

(** ** Rows of the four tables *)

Module Donor.
Record t : Type := {
  donor_id : string;
  name : string;
  email : string;
  phone : string;
  city : string;
  state : string;
  zip_code : string;
  specialties : string;
  avg_response_time_hours : Z;
  total_fulfilled : Z;
  last_donation_date : string;
  active : bool
}.
End Donor.

Module Church.
Record t : Type := {
  church_id : string;
  name : string;
  city : string;
  state : string;
  zip_code : string;
  contact_name : string;
  contact_email : string;
  contact_phone : string;
  active_volunteers : Z;
  total_fulfilled : Z
}.
End Church.

Module Need.
Record t : Type := {
  need_id : string;
  request_date : string;
  category : string;
  item_description : string;
  quantity : Z;
  urgency : string;
  family_id : string;
  city : string;
  state : string;
  zip_code : string;
  status : string;
  matched_date : option string;
  fulfilled_date : option string;
  assigned_donor_id : option string;
  assigned_church_id : option string;
  notes : string
}.
End Need.

Module Fulfillment.
Record t : Type := {
  fulfillment_id : string;
  need_id : string;
  donor_id : option string;
  church_id : option string;
  request_date : string;
  matched_date : option string;
  fulfilled_date : option string;
  response_time_hours : Z;
  fulfillment_time_hours : Z;
  category : string;
  donor_rating : Z
}.
End Fulfillment.

(** ** [CarePortalDataGenerator] *)

(** [datetime(2024, 1, 1)] *)
Definition base_date : Z := calendar.datetime 2024 1 1.

Definition generate_donors (n : nat) : M (list Donor.t) :=
  let categories := keys need_categories in
  for_append (range1 n) (fun _ i =>
    city <- random.choice cities ;;
    num_specialties <- random.randint 1 3 ;;
    specialties <- random.sample categories (Z.to_nat num_specialties) ;;
    phone <- random.randint 1000 9999 ;;
    zip_code <- random.choice (City.zips city) ;;
    avg_response_time_hours <- random.randint 2 50 ;;
    total_fulfilled <- random.randint 0 50 ;;
    days <- random.randint 0 364 ;;
    r <- random.random ;;
    ret {| Donor.donor_id := "D" +:+ zfill 4 (str_nat i);
           Donor.name := "Donor " +:+ str_nat i;
           Donor.email := "donor" +:+ str_nat i +:+ "@example.com";
           Donor.phone := "555-" +:+ str_Z phone;
           Donor.city := City.name city;
           Donor.state := City.state city;
           Donor.zip_code := zip_code;
           Donor.specialties := join ";" specialties;
           Donor.avg_response_time_hours := avg_response_time_hours;
           Donor.total_fulfilled := total_fulfilled;
           Donor.last_donation_date :=
             calendar.strftime_ymd (base_date + calendar.timedelta_days days);
           Donor.active := random.gt r random.float_0_1 |}) [].

Definition generate_churches (n : nat) : M (list Church.t) :=
  for_append (range1 n) (fun _ i =>
    city <- random.choice cities ;;
    base_name <- getindex church_names (i mod length church_names) ;;
    let name :=
      if (length church_names <? i)%nat
      then base_name +:+ " - " +:+ City.name city
      else base_name in
    zip_code <- random.choice (City.zips city) ;;
    contact_phone <- random.randint 1000 9999 ;;
    active_volunteers <- random.randint 10 60 ;;
    total_fulfilled <- random.randint 0 100 ;;
    ret {| Church.church_id := "C" +:+ zfill 3 (str_nat i);
           Church.name := name;
           Church.city := City.name city;
           Church.state := City.state city;
           Church.zip_code := zip_code;
           Church.contact_name := "Pastor " +:+ chr (65 + i mod 26);
           Church.contact_email := "contact" +:+ str_nat i +:+ "@church.org";
           Church.contact_phone := "555-" +:+ str_Z contact_phone;
           Church.active_volunteers := active_volunteers;
           Church.total_fulfilled := total_fulfilled |}) [].

(** [if df is not None: x = random.choice(df[col].tolist())] *)
Definition assign {A} (col : A -> string) (df : option (list A))
    : M (option string) :=
  match df with
  | None => ret None
  | Some rows =>
      ids <- column col rows ;;
      x <- random.choice ids ;;
      ret (Some x)
  end.

(** The block of the loop body that adds dates and assignments for
    matched and fulfilled needs; it yields the locals
    [(matched_date, fulfilled_date, assigned_donor, assigned_church)]. *)
Definition lifecycle (status : string) (request_date : Z)
    (donors_df : option (list Donor.t)) (churches_df : option (list Church.t))
    : M (option Z * option Z * option string * option string) :=
  if isin status ["Matched"; "In Progress"; "Fulfilled"; "Closed"]
  then
    h <- random.randint 1 48 ;;
    let matched_date := request_date + calendar.timedelta_hours h in
    assigned_donor <- assign Donor.donor_id donors_df ;;
    assigned_church <- assign Church.church_id churches_df ;;
    fulfilled_date <-
      (if isin status ["Fulfilled"; "Closed"]
       then
         h' <- random.randint 1 120 ;;
         ret (Some (matched_date + calendar.timedelta_hours h'))
       else ret None) ;;
    ret (Some matched_date, fulfilled_date, assigned_donor, assigned_church)
  else ret (None, None, None, None).

Definition generate_needs (n : nat) (donors_df : option (list Donor.t))
    (churches_df : option (list Church.t)) : M (list Need.t) :=
  for_append (range1 n) (fun _ i =>
    category <- random.choice (keys need_categories) ;;
    items <- getitem need_categories category ;;
    item <- random.choice items ;;
    city <- random.choice cities ;;
    days <- random.randint 0 364 ;;
    let request_date := base_date + calendar.timedelta_days days in
    status <- random.choice statuses ;;
    locals <- lifecycle status request_date donors_df churches_df ;;
    let matched_date := fst (fst (fst locals)) in
    let fulfilled_date := snd (fst (fst locals)) in
    let assigned_donor := snd (fst locals) in
    let assigned_church := snd locals in
    quantity <- random.randint 1 6 ;;
    urgency <- random.choice urgency_levels ;;
    family <- random.randint 1 200 ;;
    zip_code <- random.choice (City.zips city) ;;
    r <- random.random ;;
    ret {| Need.need_id := "N" +:+ zfill 5 (str_nat i);
           Need.request_date := calendar.strftime_ymd request_date;
           Need.category := category;
           Need.item_description := item;
           Need.quantity := quantity;
           Need.urgency := urgency;
           Need.family_id := "F" +:+ zfill 4 (str_Z family);
           Need.city := City.name city;
           Need.state := City.state city;
           Need.zip_code := zip_code;
           Need.status := status;
           Need.matched_date := calendar.strftime_ymd <$> matched_date;
           Need.fulfilled_date := calendar.strftime_ymd <$> fulfilled_date;
           Need.assigned_donor_id := assigned_donor;
           Need.assigned_church_id := assigned_church;
           Need.notes :=
             if random.gt r random.float_0_7
             then "Urgent need for family in crisis" else "" |}) [].

Definition generate_fulfillments (needs_df : list Need.t)
    : M (list Fulfillment.t) :=
  status <- column Need.status needs_df ;;
  let fulfilled_needs :=
    select_rows (fun need => isin (Need.status need) ["Fulfilled"; "Closed"])
      needs_df in
  for_append fulfilled_needs (fun fulfillments row =>
    let need := snd row in
    request_time <- pd_to_datetime (Some (Need.request_date need)) ;;
    matched_time <- pd_to_datetime (Need.matched_date need) ;;
    fulfilled_time <- pd_to_datetime (Need.fulfilled_date need) ;;
    h1 <- whole_hours matched_time request_time ;;
    let response_hours := Z.max 1 h1 in
    h2 <- whole_hours fulfilled_time matched_time ;;
    let fulfillment_hours := Z.max 1 h2 in
    donor_rating <- random.randint 4 5 ;;
    ret {| Fulfillment.fulfillment_id :=
             "FH" +:+ zfill 5 (str_nat (length fulfillments + 1));
           Fulfillment.need_id := Need.need_id need;
           Fulfillment.donor_id := Need.assigned_donor_id need;
           Fulfillment.church_id := Need.assigned_church_id need;
           Fulfillment.request_date := Need.request_date need;
           Fulfillment.matched_date := Need.matched_date need;
           Fulfillment.fulfilled_date := Need.fulfilled_date need;
           Fulfillment.response_time_hours := response_hours;
           Fulfillment.fulfillment_time_hours := fulfillment_hours;
           Fulfillment.category := Need.category need;
           Fulfillment.donor_rating := donor_rating |}) [].

(** The dict [generate_all] returns. *)
Record datasets : Type := {
  donors : list Donor.t;
  churches : list Church.t;
  needs : list Need.t;
  fulfillments : list Fulfillment.t
}.

Definition generate_all (n_donors n_churches n_needs : nat) : M datasets :=
  donors <- generate_donors n_donors ;;
  churches <- generate_churches n_churches ;;
  needs <- generate_needs n_needs (Some donors) (Some churches) ;;
  fulfillments <- generate_fulfillments needs ;;
  ret {| donors := donors; churches := churches; needs := needs;
         fulfillments := fulfillments |}.

(** * Predicates of the specification *)

(** ** Triples for the monad *)

(** [triple m Q E]: from every generator state, [m] either returns a value
    satisfying [Q] or raises an exception satisfying [E].  With [E] empty
    ([no_exn]) this is total correctness. *)
Definition triple {A} (m : M A) (Q : A -> Prop) (E : exn -> Prop) : Prop :=
  forall g, match m g with
            | Ok (a, _) => Q a
            | Raise e => E e
            end.

Definition no_exn : exn -> Prop := fun _ => False.

(** The result of [for_append]: [acc] extended by one element per item of
    [xs], the [k]-th of them related by [Q] to its item and to the length
    the list had when it was built. *)
Definition appended {A B} (Q : nat -> A -> B -> Prop) (xs : list A)
    (acc : list B) (r : list B) : Prop :=
  exists bs, r = acc ++ bs /\ length bs = length xs /\
    forall k x b, xs !! k = Some x -> bs !! k = Some b ->
                  Q (length acc + k)%nat x b.

(** ** Strings and dates *)

(** [sep not in s] *)
Fixpoint sep_free (sep : Ascii.ascii) (s : string) : bool :=
  match s with
  | EmptyString => true
  | String c s' => negb (Ascii.eqb c sep) && sep_free sep s'
  end.

(** The date [k] days after 2024-01-01 (day 19723 of the epoch), once
    written by [strftime], reads back as midnight of that day. *)
Definition reads_back (k : nat) : bool :=
  match calendar.to_timestamp (calendar.format_day (19723 + Z.of_nat k)) with
  | Some v => v =? 86400 * (19723 + Z.of_nat k)
  | None => false
  end.

(** ** Rows of the need table *)

(** The assignment the need generator makes from a table: none when the
    table is absent, an identifier of the table otherwise. *)
Definition assigned_from {A} (col : A -> string) (df : option (list A))
    (v : option string) : Prop :=
  match df with
  | None => v = None
  | Some rows => exists x, v = Some x /\ x ∈ map col rows
  end.

(** What [lifecycle] yields, by status. *)
Definition lifecycle_inv (status : string) (request_date : Z)
    (donors_df : option (list Donor.t)) (churches_df : option (list Church.t))
    (v : option Z * option Z * option string * option string) : Prop :=
  if isin status ["Matched"; "In Progress"; "Fulfilled"; "Closed"]
  then
    exists h, 1 <= h <= 48 /\
      fst (fst (fst v)) = Some (request_date + h) /\
      assigned_from Donor.donor_id donors_df (snd (fst v)) /\
      assigned_from Church.church_id churches_df (snd v) /\
      if isin status ["Fulfilled"; "Closed"]
      then exists h', 1 <= h' <= 120 /\
             snd (fst (fst v)) = Some (request_date + h + h')
      else snd (fst (fst v)) = None
  else v = (None, None, None, None).

(** The only exception of the need generator: a table that is present
    but has no rows. *)
Definition empty_table (donors_df : option (list Donor.t))
    (churches_df : option (list Church.t)) (e : exn) : Prop :=
  e = KeyError /\ (donors_df = Some [] \/ churches_df = Some []).

(** What every generated need row satisfies. *)
Definition need_inv (donors_df : option (list Donor.t))
    (churches_df : option (list Church.t)) (i : nat) (r : Need.t) : Prop :=
  Need.need_id r = "N" +:+ zfill 5 (str_nat i) /\
  Need.status r ∈ statuses /\
  exists days v, 0 <= days <= 364 /\
    lifecycle_inv (Need.status r) (base_date + 24 * days) donors_df churches_df v /\
    Need.request_date r = calendar.strftime_ymd (base_date + 24 * days) /\
    Need.matched_date r = calendar.strftime_ymd <$> fst (fst (fst v)) /\
    Need.fulfilled_date r = calendar.strftime_ymd <$> snd (fst (fst v)) /\
    Need.assigned_donor_id r = snd (fst v) /\
    Need.assigned_church_id r = snd v.

(** No lifecycle timestamp and no assignment. *)
Definition lifecycle_unset (r : Need.t) : Prop :=
  Need.matched_date r = None /\ Need.fulfilled_date r = None /\
  Need.assigned_donor_id r = None /\ Need.assigned_church_id r = None.

(** No assigned donor and no assigned church. *)
Definition unassigned (r : Need.t) : Prop :=
  Need.assigned_donor_id r = None /\ Need.assigned_church_id r = None.

(** The statuses past "Requested" that carry dates and assignments. *)
Definition progressed : list string :=
  ["Matched"; "In Progress"; "Fulfilled"; "Closed"]%string.

(** ** Sample inputs *)

(** A generator whose every raw draw is [v]. *)
Definition const_rng (v : Z) : rng := {| tape := fun _ => v; pos := 0 |}.

(** A donor table row and a church table row, as the generators build
    them. *)
Definition example_donor : Donor.t :=
  {| Donor.donor_id := "D0001"; Donor.name := "Donor 1";
     Donor.email := "donor1@example.com"; Donor.phone := "555-1005";
     Donor.city := "Charlotte"; Donor.state := "NC"; Donor.zip_code := "28201";
     Donor.specialties := "Childcare;Medical;Utilities";
     Donor.avg_response_time_hours := 7; Donor.total_fulfilled := 5;
     Donor.last_donation_date := "2024-01-06"; Donor.active := false |}.

Definition example_church : Church.t :=
  {| Church.church_id := "C001"; Church.name := "First Baptist Church";
     Church.city := "Charlotte"; Church.state := "NC"; Church.zip_code := "28201";
     Church.contact_name := "Pastor B";
     Church.contact_email := "contact1@church.org";
     Church.contact_phone := "555-1005";
     Church.active_volunteers := 15; Church.total_fulfilled := 5 |}.

(** Comparison of two stored ["%Y-%m-%d"] dates, read as [pd.to_datetime]
    reads them. *)
Definition stored_before (a b : string) : Prop :=
  exists x y, calendar.to_timestamp a = Some x /\
              calendar.to_timestamp b = Some y /\ x < y.

(** The same comparison without strictness. *)
Definition stored_not_after (a b : string) : Prop :=
  exists x y, calendar.to_timestamp a = Some x /\
              calendar.to_timestamp b = Some y /\ x <= y.

(** ** Rows of the donor and church tables *)

(** What every generated donor row satisfies: the row is the one built for
    index [i], and its specialties field joins a duplicate-free selection
    of one to three category names. *)
Definition donor_inv (i : nat) (r : Donor.t) : Prop :=
  Donor.donor_id r = "D" +:+ zfill 4 (str_nat i) /\
  exists picked : list string,
    Donor.specialties r = join ";" picked /\
    (1 <= length picked <= 3)%nat /\ NoDup picked /\
    forall c, c ∈ picked -> c ∈ keys need_categories.

(** What the row built for index [i] holds. *)
Definition church_inv (i : nat) (r : Church.t) : Prop :=
  Church.church_id r = "C" +:+ zfill 3 (str_nat i) /\
  (exists city, city ∈ cities /\ Church.city r = City.name city) /\
  exists base_name,
    church_names !! (i mod length church_names)%nat = Some base_name /\
    Church.name r =
      if (length church_names <? i)%nat
      then base_name +:+ " - " +:+ Church.city r
      else base_name.

(** ** Rows of the fulfillment table *)

(** [select_rows] over a frame whose index starts at [s]. *)
Definition select_from {A} (mask : A -> bool) (s : nat) (df : list A)
    : list (nat * A) :=
  filter (fun p => mask (snd p) = true) (zip (seq s (length df)) df).

(** Status is "Fulfilled" or "Closed". *)
Definition completed (need : Need.t) : bool :=
  isin (Need.status need) ["Fulfilled"; "Closed"].

(** The three date cells hold dates that read back. *)
Definition dates_parse (need : Need.t) : bool :=
  match calendar.to_timestamp (Need.request_date need),
        Need.matched_date need ≫= calendar.to_timestamp,
        Need.fulfilled_date need ≫= calendar.to_timestamp with
  | Some _, Some _, Some _ => true
  | _, _, _ => false
  end.

(** A need table in good form for the deriver: it has rows (a frame
    without rows has no status column), and every completed row carries
    its three dates. *)
Definition well_formed (needs_df : list Need.t) : bool :=
  negb (Nat.eqb (length needs_df) 0) &&
  forallb (fun need => implb (completed need) (dates_parse need)) needs_df.

(** The record the deriver builds from [need] when the list built so far
    has [k] records. *)
Definition fulfillment_of (k : nat) (need : Need.t) (f : Fulfillment.t) : Prop :=
  Fulfillment.fulfillment_id f = "FH" +:+ zfill 5 (str_nat (k + 1)) /\
  Fulfillment.need_id f = Need.need_id need /\
  Fulfillment.donor_id f = Need.assigned_donor_id need /\
  Fulfillment.church_id f = Need.assigned_church_id need /\
  Fulfillment.request_date f = Need.request_date need /\
  Fulfillment.matched_date f = Need.matched_date need /\
  Fulfillment.fulfilled_date f = Need.fulfilled_date need /\
  Fulfillment.category f = Need.category need /\
  1 <= Fulfillment.response_time_hours f /\
  1 <= Fulfillment.fulfillment_time_hours f /\
  4 <= Fulfillment.donor_rating f <= 5.

(** A need table with one completed and one requested row. *)
Definition example_needs : list Need.t :=
  [ {| Need.need_id := "N00007"; Need.request_date := "2024-03-01";
       Need.category := "Food"; Need.item_description := "meal";
       Need.quantity := 2; Need.urgency := "High"; Need.family_id := "F0042";
       Need.city := "Atlanta"; Need.state := "GA"; Need.zip_code := "30301";
       Need.status := "Closed";
       Need.matched_date := Some "2024-03-02"%string;
       Need.fulfilled_date := Some "2024-03-05"%string;
       Need.assigned_donor_id := Some "D0001"%string;
       Need.assigned_church_id := Some "C001"%string;
       Need.notes := "" |};
    {| Need.need_id := "N00008"; Need.request_date := "2024-03-02";
       Need.category := "Housing"; Need.item_description := "bed";
       Need.quantity := 1; Need.urgency := "Low"; Need.family_id := "F0007";
       Need.city := "Nashville"; Need.state := "TN"; Need.zip_code := "37201";
       Need.status := "Requested";
       Need.matched_date := None; Need.fulfilled_date := None;
       Need.assigned_donor_id := None; Need.assigned_church_id := None;
       Need.notes := "" |} ].

(** * Predicates of the further properties *)

(** ** Domains of the generated fields *)

(** A location as the generators draw it: the name and state of one of
    the fixed cities together with one of that city's postal codes. *)
Definition location_ok (city state zip_code : string) : Prop :=
  exists c, c ∈ cities /\ city = City.name c /\ state = City.state c /\
            zip_code ∈ City.zips c.

(** A stored date from 2024-01-01 to 2024-12-30. *)
Definition within_2024 (s : string) : Prop :=
  stored_not_after "2024-01-01" s /\ stored_not_after s "2024-12-30".

(** ["555-"] followed by a number from 1000 to 9999. *)
Definition phone_ok (s : string) : Prop :=
  exists p, 1000 <= p <= 9999 /\ s = "555-" +:+ str_Z p.

Definition donor_domain (r : Donor.t) : Prop :=
  location_ok (Donor.city r) (Donor.state r) (Donor.zip_code r) /\
  phone_ok (Donor.phone r) /\
  2 <= Donor.avg_response_time_hours r <= 50 /\
  0 <= Donor.total_fulfilled r <= 50 /\
  within_2024 (Donor.last_donation_date r).

Definition church_domain (i : nat) (r : Church.t) : Prop :=
  location_ok (Church.city r) (Church.state r) (Church.zip_code r) /\
  phone_ok (Church.contact_phone r) /\
  10 <= Church.active_volunteers r <= 60 /\
  0 <= Church.total_fulfilled r <= 100 /\
  exists letter : Ascii.ascii,
    Church.contact_name r = "Pastor " +:+ String letter EmptyString /\
    Ascii.nat_of_ascii letter = (65 + i mod 26)%nat.

Definition need_domain (r : Need.t) : Prop :=
  (exists items, (Need.category r, items) ∈ need_categories /\
                 Need.item_description r ∈ items) /\
  1 <= Need.quantity r <= 6 /\
  Need.urgency r ∈ urgency_levels /\
  (exists f, 1 <= f <= 200 /\ Need.family_id r = "F" +:+ zfill 4 (str_Z f)) /\
  location_ok (Need.city r) (Need.state r) (Need.zip_code r) /\
  Need.status r ∈ statuses /\
  within_2024 (Need.request_date r) /\
  (Need.notes r = "Urgent need for family in crisis" \/ Need.notes r = "")%string.

(** ** Durations of the fulfillment deriver *)

(** The duration the deriver computes from two date cells: both read as
    midnight of a day ([d1] then [d2], in days since 1970-01-01), and the
    whole hours between them, 24 for each day, are floored at 1. *)
Definition duration_between (earlier later : option string) (hours : Z) : Prop :=
  exists d1 d2,
    earlier ≫= calendar.to_timestamp = Some (86400 * d1) /\
    later ≫= calendar.to_timestamp = Some (86400 * d2) /\
    hours = Z.max 1 (24 * (d2 - d1)).

Definition fulfillment_durations (need : Need.t) (f : Fulfillment.t) : Prop :=
  duration_between (Some (Need.request_date need)) (Need.matched_date need)
                   (Fulfillment.response_time_hours f) /\
  duration_between (Need.matched_date need) (Need.fulfilled_date need)
                   (Fulfillment.fulfillment_time_hours f).

(** A need table without completed rows, and one with only the completed
    row of [example_needs]. *)
Definition example_open_needs : list Need.t := drop 1 example_needs.
Definition example_closed_needs : list Need.t := take 1 example_needs.

(** The body of the deriver's loop, named: [fulfillments] is the list
    built so far and [row] a retained row with its label. *)
Definition fulfillment_row (fulfillments : list Fulfillment.t)
    (row : nat * Need.t) : M Fulfillment.t :=
  let need := snd row in
  request_time <- pd_to_datetime (Some (Need.request_date need)) ;;
  matched_time <- pd_to_datetime (Need.matched_date need) ;;
  fulfilled_time <- pd_to_datetime (Need.fulfilled_date need) ;;
  h1 <- whole_hours matched_time request_time ;;
  let response_hours := Z.max 1 h1 in
  h2 <- whole_hours fulfilled_time matched_time ;;
  let fulfillment_hours := Z.max 1 h2 in
  donor_rating <- random.randint 4 5 ;;
  ret {| Fulfillment.fulfillment_id :=
           "FH" +:+ zfill 5 (str_nat (length fulfillments + 1));
         Fulfillment.need_id := Need.need_id need;
         Fulfillment.donor_id := Need.assigned_donor_id need;
         Fulfillment.church_id := Need.assigned_church_id need;
         Fulfillment.request_date := Need.request_date need;
         Fulfillment.matched_date := Need.matched_date need;
         Fulfillment.fulfilled_date := Need.fulfilled_date need;
         Fulfillment.response_time_hours := response_hours;
         Fulfillment.fulfillment_time_hours := fulfillment_hours;
         Fulfillment.category := Need.category need;
         Fulfillment.donor_rating := donor_rating |}.

(** What a row of the deriver's result satisfies. *)
Definition fulfillment_full (k : nat) (need : Need.t) (f : Fulfillment.t) : Prop :=
  fulfillment_of k need f /\ fulfillment_durations need f.

(** ** The four tables of a pipeline run *)

(** What the tables [generate_all] returns satisfy together: the row
    invariants of each generator, with the needs generated against the
    donor and church tables of the same run and the fulfillments derived
    from its need table. *)
Definition pipeline_inv (n_donors n_churches n_needs : nat) (out : datasets)
    : Prop :=
  length (donors out) = n_donors /\
  length (churches out) = n_churches /\
  length (needs out) = n_needs /\
  (forall k r, donors out !! k = Some r -> donor_inv (S k) r) /\
  (forall k r, churches out !! k = Some r -> church_inv (S k) r) /\
  (forall k r, needs out !! k = Some r ->
     need_inv (Some (donors out)) (Some (churches out)) (S k) r) /\
  length (fulfillments out) = length (select_rows completed (needs out)) /\
  (forall k row f,
     select_rows completed (needs out) !! k = Some row ->
     fulfillments out !! k = Some f -> fulfillment_full k (snd row) f).

(** ** Use of the generator *)

(** [m] makes exactly [n] draws whenever it returns: the generator keeps
    its sequence and moves [n] positions along it. *)
Definition advances {A} (m : M A) (n : nat) : Prop :=
  forall g, match m g with
            | Ok (_, g') => tape g' = tape g /\ pos g' = (pos g + n)%nat
            | Raise _ => True
            end.

(** ** Frames in general *)

(** A [pd.DataFrame] whose columns may outlive its rows.  [column],
    [generate_needs] and [generate_fulfillments] above take a table as the
    list of its rows, which is the frame [pd.DataFrame(rows)] builds: from
    an empty list that frame has no columns.  A frame can also keep its
    columns and hold no row ([df.iloc[0:0]], a file with a header only);
    then [df[col]] is an empty column instead of a [KeyError]. *)
Inductive frame (A : Type) : Type :=
| NoColumns
| Rows (rows : list A).
Arguments NoColumns {A}.
Arguments Rows {A} rows.

(** [pd.DataFrame(rows)] for a list of dicts. *)
Definition DataFrame {A} (rows : list A) : frame A :=
  match rows with
  | [] => NoColumns
  | _ :: _ => Rows rows
  end.

Definition frame_rows {A} (df : frame A) : list A :=
  match df with
  | NoColumns => []
  | Rows rows => rows
  end.

(** A frame without rows, with or without its columns. *)
Definition empty_frame {A} (columns : bool) : frame A :=
  if columns then Rows [] else NoColumns.

(** [df[col].tolist()] *)
Definition frame_column {A B} (col : A -> B) (df : frame A) : M (list B) :=
  match df with
  | NoColumns => raise KeyError
  | Rows rows => ret (map col rows)
  end.

(** [if df is not None: x = random.choice(df[col].tolist())] *)
Definition frame_assign {A} (col : A -> string) (df : option (frame A))
    : M (option string) :=
  match df with
  | None => ret None
  | Some df =>
      ids <- frame_column col df ;;
      x <- random.choice ids ;;
      ret (Some x)
  end.

(** The block of [generate_needs] that [lifecycle] embeds, on frames. *)
Definition frame_lifecycle (status : string) (request_date : Z)
    (donors_df : option (frame Donor.t)) (churches_df : option (frame Church.t))
    : M (option Z * option Z * option string * option string) :=
  if isin status ["Matched"; "In Progress"; "Fulfilled"; "Closed"]
  then
    h <- random.randint 1 48 ;;
    let matched_date := request_date + calendar.timedelta_hours h in
    assigned_donor <- frame_assign Donor.donor_id donors_df ;;
    assigned_church <- frame_assign Church.church_id churches_df ;;
    fulfilled_date <-
      (if isin status ["Fulfilled"; "Closed"]
       then
         h' <- random.randint 1 120 ;;
         ret (Some (matched_date + calendar.timedelta_hours h'))
       else ret None) ;;
    ret (Some matched_date, fulfilled_date, assigned_donor, assigned_church)
  else ret (None, None, None, None).

(** The three datetimes one iteration of [generate_needs] holds in its
    locals [request_date], [matched_date] and [fulfilled_date], in hours
    since 1970-01-01 00:00, before [strftime] reduces them to dates. *)
Module Computed.
Record t : Type := {
  request_date : Z;
  matched_date : option Z;
  fulfilled_date : option Z
}.
End Computed.

(** One iteration of the loop of [generate_needs] for index [i], on
    frames: it yields the row it appends together with the datetimes it
    computed for it. *)
Definition need_iteration (i : nat) (donors_df : option (frame Donor.t))
    (churches_df : option (frame Church.t)) : M (Computed.t * Need.t) :=
  category <- random.choice (keys need_categories) ;;
  items <- getitem need_categories category ;;
  item <- random.choice items ;;
  city <- random.choice cities ;;
  days <- random.randint 0 364 ;;
  let request_date := base_date + calendar.timedelta_days days in
  status <- random.choice statuses ;;
  locals <- frame_lifecycle status request_date donors_df churches_df ;;
  let matched_date := fst (fst (fst locals)) in
  let fulfilled_date := snd (fst (fst locals)) in
  let assigned_donor := snd (fst locals) in
  let assigned_church := snd locals in
  quantity <- random.randint 1 6 ;;
  urgency <- random.choice urgency_levels ;;
  family <- random.randint 1 200 ;;
  zip_code <- random.choice (City.zips city) ;;
  r <- random.random ;;
  ret ({| Computed.request_date := request_date;
          Computed.matched_date := matched_date;
          Computed.fulfilled_date := fulfilled_date |},
       {| Need.need_id := "N" +:+ zfill 5 (str_nat i);
          Need.request_date := calendar.strftime_ymd request_date;
          Need.category := category;
          Need.item_description := item;
          Need.quantity := quantity;
          Need.urgency := urgency;
          Need.family_id := "F" +:+ zfill 4 (str_Z family);
          Need.city := City.name city;
          Need.state := City.state city;
          Need.zip_code := zip_code;
          Need.status := status;
          Need.matched_date := calendar.strftime_ymd <$> matched_date;
          Need.fulfilled_date := calendar.strftime_ymd <$> fulfilled_date;
          Need.assigned_donor_id := assigned_donor;
          Need.assigned_church_id := assigned_church;
          Need.notes :=
            if random.gt r random.float_0_7
            then "Urgent need for family in crisis" else "" |}).

(** The loop of [generate_needs] on frames, keeping for every row the
    datetimes computed for it. *)
Definition generate_needs_traced (n : nat) (donors_df : option (frame Donor.t))
    (churches_df : option (frame Church.t)) : M (list (Computed.t * Need.t)) :=
  for_append (range1 n) (fun _ i => need_iteration i donors_df churches_df) [].

(** [generate_needs] on frames: the rows of the loop above. *)
Definition frame_generate_needs (n : nat) (donors_df : option (frame Donor.t))
    (churches_df : option (frame Church.t)) : M (list Need.t) :=
  trace <- generate_needs_traced n donors_df churches_df ;;
  ret (snd <$> trace).

(** [generate_fulfillments] on frames: the status lookup, then the loop
    over the retained rows. *)
Definition frame_generate_fulfillments (needs_df : frame Need.t)
    : M (list Fulfillment.t) :=
  status <- frame_column Need.status needs_df ;;
  let fulfilled_needs :=
    select_rows (fun need => isin (Need.status need) ["Fulfilled"; "Closed"])
      (frame_rows needs_df) in
  for_append fulfilled_needs fulfillment_row [].

(** The assignment made from a frame: none when the table is absent, an
    identifier of one of its rows otherwise. *)
Definition frame_assigned_from {A} (col : A -> string) (df : option (frame A))
    (v : option string) : Prop :=
  match df with
  | None => v = None
  | Some df => exists x, v = Some x /\ x ∈ map col (frame_rows df)
  end.

(** The exception a table without rows causes: [KeyError] from the column
    lookup when the frame has no columns, [IndexError] from
    [random.choice] on the empty column when it has. *)
Definition no_rows {A} (df : option (frame A)) (e : exn) : Prop :=
  (e = KeyError /\ df = Some NoColumns) \/
  (e = IndexError /\ df = Some (Rows [])).

(** What [frame_lifecycle] yields, by status. *)
Definition frame_lifecycle_inv (status : string) (request_date : Z)
    (donors_df : option (frame Donor.t)) (churches_df : option (frame Church.t))
    (v : option Z * option Z * option string * option string) : Prop :=
  if isin status ["Matched"; "In Progress"; "Fulfilled"; "Closed"]
  then
    exists h, 1 <= h <= 48 /\
      fst (fst (fst v)) = Some (request_date + h) /\
      frame_assigned_from Donor.donor_id donors_df (snd (fst v)) /\
      frame_assigned_from Church.church_id churches_df (snd v) /\
      if isin status ["Fulfilled"; "Closed"]
      then exists h', 1 <= h' <= 120 /\
             snd (fst (fst v)) = Some (request_date + h + h')
      else snd (fst (fst v)) = None
  else v = (None, None, None, None).

(** What one iteration yields: the row built for index [i] from the
    datetimes computed for it. *)
Definition need_iteration_inv (donors_df : option (frame Donor.t))
    (churches_df : option (frame Church.t)) (i : nat)
    (entry : Computed.t * Need.t) : Prop :=
  let t := fst entry in
  let r := snd entry in
  Need.need_id r = "N" +:+ zfill 5 (str_nat i) /\
  Need.status r ∈ statuses /\
  (exists days, 0 <= days <= 364 /\
                Computed.request_date t = base_date + 24 * days) /\
  Need.request_date r = calendar.strftime_ymd (Computed.request_date t) /\
  Need.matched_date r = calendar.strftime_ymd <$> Computed.matched_date t /\
  Need.fulfilled_date r = calendar.strftime_ymd <$> Computed.fulfilled_date t /\
  frame_lifecycle_inv (Need.status r) (Computed.request_date t)
    donors_df churches_df
    (Computed.matched_date t, Computed.fulfilled_date t,
     Need.assigned_donor_id r, Need.assigned_church_id r).

(** A date cell of the need table is missing, or holds a plain
    ["YYYY-MM-DD"] date. *)
Definition plain_date (cell : option string) : bool :=
  match cell with
  | None => true
  | Some s => match calendar.to_timestamp s with
              | Some _ => true
              | None => false
              end
  end.

(** The request date of a row is a plain date, and its matched and
    fulfilled dates are missing or plain. *)
Definition plain_dates (need : Need.t) : bool :=
  match calendar.to_timestamp (Need.request_date need) with
  | Some _ =>
      plain_date (Need.matched_date need) && plain_date (Need.fulfilled_date need)
  | None => false
  end.

(** The matched or the fulfilled date of a row is missing. *)
Definition lacks_date (need : Need.t) : bool :=
  match Need.matched_date need, Need.fulfilled_date need with
  | Some _, Some _ => false
  | _, _ => true
  end.

(** The row of [example_needs] that is "Closed", without its fulfilled
    date. *)
Definition example_undated_needs : list Need.t :=
  [ {| Need.need_id := "N00007"; Need.request_date := "2024-03-01";
       Need.category := "Food"; Need.item_description := "meal";
       Need.quantity := 2; Need.urgency := "High"; Need.family_id := "F0042";
       Need.city := "Atlanta"; Need.state := "GA"; Need.zip_code := "30301";
       Need.status := "Closed";
       Need.matched_date := Some "2024-03-02"%string;
       Need.fulfilled_date := None;
       Need.assigned_donor_id := Some "D0001"%string;
       Need.assigned_church_id := Some "C001"%string;
       Need.notes := "" |} ].

(** ** Dependence on the generator *)

(** Two generator states that deliver the same draws from here on,
    however they are held and whatever they delivered before: the states
    [random.seed] sets from one seed are of this kind. *)
Definition same_draws (g1 g2 : rng) : Prop :=
  forall k, tape g1 (pos g1 + k)%nat = tape g2 (pos g2 + k)%nat.

(** Two outcomes that cannot be told apart: the same exception, or the
    same value with generators that go on delivering the same draws. *)
Definition agree {A} (r1 r2 : res (A * rng)) : Prop :=
  match r1, r2 with
  | Ok (a1, g1'), Ok (a2, g2') => a1 = a2 /\ same_draws g1' g2'
  | Raise e1, Raise e2 => e1 = e2
  | _, _ => False
  end.

(** [m] depends on the generator through its draws only. *)
Definition draws_only {A} (m : M A) : Prop :=
  forall g1 g2, same_draws g1 g2 -> agree (m g1) (m g2).

(** A generator that delivers the draws of [const_rng v] after draws of
    its own. *)
Definition late_rng (v : Z) : rng :=
  {| tape := fun k => if (k <? 5)%nat then Z.of_nat k else v; pos := 5 |}.

(** * Proofs *)

(** ** The model on concrete inputs *)

Example zfill_pads : zfill 4 (str_nat 7) = "0007"%string.
Proof. reflexivity. Qed.

Example zfill_keeps_long : zfill 3 (str_nat 1234) = "1234"%string.
Proof. vm_compute. reflexivity. Qed.

Example strftime_leap_day :
  calendar.strftime_ymd (base_date + calendar.timedelta_days 59 + 5)
  = "2024-02-29"%string.
Proof. vm_compute. reflexivity. Qed.

Example to_timestamp_rejects : calendar.to_timestamp "2023-02-29" = None.
Proof. vm_compute. reflexivity. Qed.

Example float_0_1_threshold :
  random.gt {| random.num := 900719925474100; random.exp2 := 53 |}
            random.float_0_1 = true /\
  random.gt {| random.num := 900719925474099; random.exp2 := 53 |}
            random.float_0_1 = false.
Proof. split; reflexivity. Qed.

Example sample_three :
  exists g', random.sample (keys need_categories) 3 (const_rng 5)
             = Ok (["Childcare"; "Medical"; "Utilities"]%string, g').
Proof. eexists. vm_compute. reflexivity. Qed.

Example church_twelve_and_thirteen :
  exists rows g', generate_churches 13 (const_rng 2) = Ok (rows, g') /\
    Church.name <$> rows !! 11%nat = Some "Grace Community Church"%string /\
    Church.name <$> rows !! 12%nat
      = Some "First Baptist Church - Nashville"%string.
Proof. eexists _, _. split; [vm_compute; reflexivity |]. split; reflexivity. Qed.

Example deriver_on_example_needs :
  exists f g', generate_fulfillments example_needs (const_rng 0) = Ok ([f], g') /\
    Fulfillment.fulfillment_id f = "FH00001"%string /\
    Fulfillment.need_id f = "N00007"%string /\
    Fulfillment.response_time_hours f = 24 /\
    Fulfillment.fulfillment_time_hours f = 72 /\
    Fulfillment.donor_rating f = 4.
Proof. eexists _, _. split; [vm_compute; reflexivity |]. repeat split. Qed.

Example deriver_on_empty_frame :
  generate_fulfillments [] (const_rng 0) = Raise KeyError.
Proof. reflexivity. Qed.

(** ** Rules for triples *)

Lemma triple_ret {A} (a : A) (Q : A -> Prop) E : Q a -> triple (ret a) Q E.
Proof. intros H g. exact H. Qed.

Lemma triple_raise {A} e (Q : A -> Prop) (E : exn -> Prop) :
  E e -> triple (raise e) Q E.
Proof. intros H g. exact H. Qed.

Lemma triple_bind {A B} (m : M A) (k : A -> M B) Q R E :
  triple m Q E -> (forall a, Q a -> triple (k a) R E) ->
  triple (x <- m ;; k x) R E.
Proof.
  intros Hm Hk g. unfold bind. specialize (Hm g).
  destruct (m g) as [[a g']|e]; [apply (Hk a Hm) | exact Hm].
Qed.

Lemma triple_weaken {A} (m : M A) (Q Q' : A -> Prop) (E E' : exn -> Prop) :
  triple m Q E -> (forall a, Q a -> Q' a) -> (forall e, E e -> E' e) ->
  triple m Q' E'.
Proof.
  intros Hm HQ HE g. specialize (Hm g).
  destruct (m g) as [[a g']|e]; auto.
Qed.

Lemma triple_returns {A} (m : M A) Q :
  triple m Q no_exn -> forall g, exists a g', m g = Ok (a, g') /\ Q a.
Proof.
  intros Hm g. specialize (Hm g).
  destruct (m g) as [[a g']|e]; [eauto | destruct Hm].
Qed.

Lemma triple_result {A} (m : M A) Q E g a g' :
  triple m Q E -> m g = Ok (a, g') -> Q a.
Proof. intros Hm Hg. specialize (Hm g). rewrite Hg in Hm. exact Hm. Qed.

(** The loop rule: the [k]-th appended element satisfies the body's
    postcondition at the length the list had when it was built. *)
Lemma triple_for_append {A B} (xs : list A) (body : list B -> A -> M B)
    (Q : nat -> A -> B -> Prop) E :
  (forall acc x, x ∈ xs -> triple (body acc x) (Q (length acc) x) E) ->
  forall acc, triple (for_append xs body acc) (appended Q xs acc) E.
Proof.
  induction xs as [|x xs IH]; intros Hbody acc; simpl.
  - apply triple_ret. exists []. rewrite app_nil_r.
    repeat split; auto. intros k y b Hk. rewrite lookup_nil in Hk. discriminate.
  - eapply triple_bind; [apply Hbody; left |].
    intros b Hb. eapply triple_weaken;
      [apply IH; intros; apply Hbody; right; assumption | | auto].
    intros r (bs & -> & Hlen & Hall). exists (b :: bs).
    rewrite <- app_assoc. simpl. repeat split; [congruence |].
    intros [|k] y c Hy Hc; simpl in *.
    + injection Hy as <-. injection Hc as <-.
      rewrite Nat.add_0_r. exact Hb.
    + specialize (Hall k y c Hy Hc). rewrite length_app in Hall. simpl in Hall.
      replace (length acc + S k)%nat with (length acc + 1 + k)%nat by lia.
      exact Hall.
Qed.

(** ** Specifications of the [random] module *)

Section RandomSpecs.

Context {A : Type} (E : exn -> Prop).

Lemma randbelow_spec n :
  0 < n -> triple (random.randbelow n) (fun j => 0 <= j < n) E.
Proof. intros Hn g. simpl. apply Z.mod_pos_bound. exact Hn. Qed.

Lemma randint_spec a b :
  a <= b -> triple (random.randint a b) (fun x => a <= x <= b) E.
Proof.
  intros Hab. unfold random.randint.
  destruct (Z.ltb_spec 0 (b + 1 - a)); [|exfalso; lia].
  eapply triple_bind; [apply randbelow_spec; lia |].
  intros j Hj. cbv beta in Hj. apply triple_ret. lia.
Qed.

Lemma choice_spec (l : list A) :
  l <> [] -> triple (random.choice l) (fun x => x ∈ l) E.
Proof.
  intros Hl. destruct l as [|x l]; [congruence |]. unfold random.choice.
  eapply triple_bind; [apply randbelow_spec; simpl; lia |].
  intros j Hj. cbv beta in Hj. apply triple_ret.
  apply list_elem_of_In, nth_In. simpl in *. lia.
Qed.

Lemma random_spec : triple random.random (fun _ => True) E.
Proof. intros g. exact I. Qed.

End RandomSpecs.

(** One step of the pool: after [pool[j] = pool[m - 1]] the live prefix
    [pool[: m - 1]] holds the old live prefix without the drawn element. *)
Lemma pool_step {A} (d : A) (pool : list A) (m j : nat) :
  (j < m)%nat -> (m <= length pool)%nat -> NoDup (take m pool) ->
  NoDup (take (m - 1) (<[j := nth (m - 1) pool d]> pool)) /\
  forall y, y ∈ take (m - 1) (<[j := nth (m - 1) pool d]> pool) ->
            y ∈ take m pool /\ y <> nth j pool d.
Proof.
  intros Hj Hm Hnd.
  assert (Hsrc : forall i y,
    take (m - 1) (<[j := nth (m - 1) pool d]> pool) !! i = Some y ->
    exists s, (s < m)%nat /\ s <> j /\ pool !! s = Some y /\
              s = if decide (i = j) then (m - 1)%nat else i).
  { intros i y Hi. apply lookup_take_Some in Hi as [Hi Hlt].
    apply list_lookup_insert_Some in Hi as [(-> & <- & Hlen) | (Hne & Hi)].
    - exists (m - 1)%nat. rewrite decide_True by done.
      repeat split; try lia.
      destruct (nth_lookup_or_length pool (m - 1) d); [done | lia].
    - exists i. rewrite decide_False by done. repeat split; try lia; done. }
  split.
  - apply NoDup_alt. intros i1 i2 y H1 H2.
    pose proof (proj1 (lookup_take_Some _ _ _ _) H1) as [_ L1].
    pose proof (proj1 (lookup_take_Some _ _ _ _) H2) as [_ L2].
    destruct (Hsrc _ _ H1) as (s1 & B1 & N1 & P1 & E1).
    destruct (Hsrc _ _ H2) as (s2 & B2 & N2 & P2 & E2).
    assert (s1 = s2) as Hs.
    { eapply (NoDup_lookup _ _ _ _ Hnd); rewrite lookup_take_lt by lia; eassumption. }
    repeat case_decide; lia.
  - intros y Hy. apply list_elem_of_lookup in Hy as [i Hi].
    destruct (Hsrc _ _ Hi) as (s & Hs & Hne & Ps & _). split.
    + apply list_elem_of_lookup. exists s. rewrite lookup_take_lt; done.
    + intros ->. apply Hne.
      eapply (NoDup_lookup _ _ _ _ Hnd); rewrite lookup_take_lt by lia;
        [exact Ps |].
      destruct (nth_lookup_or_length pool j d); [done | lia].
Qed.

Lemma sample_loop_spec {A} (E : exn -> Prop) (d : A) (k : nat) :
  forall (pool : list A) (m : nat),
    (k <= m)%nat -> (m <= length pool)%nat -> NoDup (take m pool) ->
    triple (random.sample_loop d pool m k)
      (fun r => length r = k /\ NoDup r /\ forall y, y ∈ r -> y ∈ take m pool) E.
Proof.
  induction k as [|k IH]; intros pool m Hk Hm Hnd; simpl.
  - apply triple_ret. split; [done |]. split; [constructor |].
    intros y Hy. inversion Hy.
  - eapply triple_bind; [apply randbelow_spec; lia |].
    intros j Hj. cbv beta in Hj.
    destruct (pool_step d pool m (Z.to_nat j)) as [Hnd' Hsub]; [lia | lia | done |].
    eapply triple_bind.
    { apply (IH _ (m - 1)%nat); [lia | rewrite length_insert; lia | exact Hnd']. }
    intros rest (Hlen & Hnd_r & Hin). apply triple_ret.
    split; [simpl; lia |]. split.
    + constructor; [| done]. intros Hx.
      apply Hin, Hsub in Hx. destruct Hx as [_ Hx]. done.
    + intros y Hy. apply elem_of_cons in Hy as [-> | Hy].
      * apply list_elem_of_lookup. exists (Z.to_nat j).
        rewrite lookup_take_lt by lia.
        destruct (nth_lookup_or_length pool (Z.to_nat j) d); [done | lia].
      * apply Hin, Hsub in Hy. tauto.
Qed.

Lemma sample_spec {A} (E : exn -> Prop) (population : list A) (k : nat) :
  (k <= length population)%nat -> NoDup population ->
  triple (random.sample population k)
    (fun r => length r = k /\ NoDup r /\ forall y, y ∈ r -> y ∈ population) E.
Proof.
  intros Hk Hnd. unfold random.sample.
  destruct population as [|d l] eqn:Hp.
  - simpl in Hk. replace k with 0%nat by lia. simpl. apply triple_ret.
    split; [done |]. split; [constructor | done].
  - rewrite <- Hp in *. destruct (Nat.leb_spec k (length population)); [| exfalso; lia].
    eapply triple_weaken; [apply (sample_loop_spec E d k); [lia | lia |] | | auto].
    + rewrite take_ge by lia. exact Hnd.
    + intros r (? & ? & Hin). rewrite take_ge in Hin by lia. auto.
Qed.

(** ** Specifications of the table helpers *)

Lemma getitem_spec {V} (E : exn -> Prop) (d : list (string * V)) (k : string) :
  k ∈ keys d -> triple (getitem d k) (fun v => (k, v) ∈ d) E.
Proof.
  induction d as [|[k' v] d IH]; simpl; intros Hk.
  - inversion Hk.
  - destruct (String.eqb_spec k k') as [-> | Hne].
    + apply triple_ret. left.
    + apply elem_of_cons in Hk as [Hk | Hk]; [done |].
      eapply triple_weaken; [apply IH, Hk | | auto].
      intros w Hw. right. exact Hw.
Qed.

Lemma getindex_spec {A} (E : exn -> Prop) (l : list A) (i : nat) :
  (i < length l)%nat -> triple (getindex l i) (fun x => l !! i = Some x) E.
Proof.
  intros Hi. unfold getindex.
  destruct (l !! i) as [x|] eqn:Hx.
  - apply triple_ret. reflexivity.
  - apply lookup_ge_None in Hx. exfalso. lia.
Qed.

Lemma column_spec {A B} (E : exn -> Prop) (col : A -> B) (df : list A) :
  df <> [] -> triple (column col df) (fun ids => ids = map col df /\ ids <> []) E.
Proof.
  intros Hdf. destruct df as [|x df]; [done |].
  apply triple_ret. split; [reflexivity | discriminate].
Qed.

Lemma column_empty {A B} (col : A -> B) (Q : list B -> Prop) :
  triple (column col []) Q (fun e => e = KeyError).
Proof. apply triple_raise. reflexivity. Qed.

(** ** Joining and splitting *)

Lemma split_free sep w : sep_free sep w = true -> split sep w = [w].
Proof.
  induction w as [|a w IH]; simpl; [reflexivity |].
  intros H. apply andb_prop in H as [Ha Hw].
  apply negb_true_iff in Ha. rewrite Ha, (IH Hw). reflexivity.
Qed.

Lemma split_app_sep sep w rest :
  sep_free sep w = true ->
  split sep (w +:+ String sep rest) = w :: split sep rest.
Proof.
  induction w as [|a w IH]; simpl.
  - intros _. rewrite Ascii.eqb_refl. reflexivity.
  - intros H. apply andb_prop in H as [Ha Hw].
    apply negb_true_iff in Ha. rewrite Ha, (IH Hw). reflexivity.
Qed.

Lemma split_join sep (l : list string) :
  l <> [] -> Forall (fun w => sep_free sep w = true) l ->
  split sep (join (String sep EmptyString) l) = l.
Proof.
  induction l as [|x l IH]; [done |]. intros _ Hall.
  apply Forall_cons in Hall as [Hx Hl].
  destruct l as [|y l].
  - simpl. apply split_free, Hx.
  - change (join (String sep EmptyString) (x :: y :: l))
      with (x +:+ String sep (join (String sep EmptyString) (y :: l))).
    rewrite split_app_sep by exact Hx. rewrite IH; [reflexivity | done | exact Hl].
Qed.

(** ** Dates written by the generator read back *)

Lemma reads_back_year : forallb reads_back (seq 0 372) = true.
Proof. vm_compute. reflexivity. Qed.

Lemma base_date_eq : base_date = 24 * 19723.
Proof. reflexivity. Qed.

(** Every date between 2024-01-01 and the latest fulfilled date the
    generator can write parses to midnight of the day it names. *)
Lemma strftime_roundtrip (t : Z) :
  base_date <= t < base_date + 24 * 372 ->
  calendar.to_timestamp (calendar.strftime_ymd t) = Some (86400 * (t / 24)).
Proof.
  rewrite base_date_eq. intros Ht. unfold calendar.strftime_ymd.
  assert (Hq : 19723 <= t / 24 < 19723 + 372).
  { split; [apply Z.div_le_lower_bound; lia | apply Z.div_lt_upper_bound; lia]. }
  pose proof (proj1 (forallb_forall _ _) reads_back_year
                (Z.to_nat (t / 24 - 19723))) as Hk.
  unfold reads_back in Hk.
  replace (19723 + Z.of_nat (Z.to_nat (t / 24 - 19723))) with (t / 24) in Hk by lia.
  destruct (calendar.to_timestamp (calendar.format_day (t / 24))) as [v|].
  - f_equal. apply Z.eqb_eq, Hk. apply in_seq. lia.
  - discriminate Hk. apply in_seq. lia.
Qed.

(** ** The fixed tables are usable *)

Lemma cities_zips (city : City.t) : city ∈ cities -> City.zips city <> [].
Proof.
  unfold cities. intros H.
  repeat (apply elem_of_cons in H as [-> | H]; [discriminate |]).
  inversion H.
Qed.

Lemma need_categories_items (k : string) (items : list string) :
  (k, items) ∈ need_categories -> items <> [].
Proof.
  unfold need_categories. intros H.
  repeat (apply elem_of_cons in H as [[= -> ->] | H]; [discriminate |]).
  inversion H.
Qed.

Lemma categories_NoDup : NoDup (keys need_categories).
Proof. apply (bool_decide_unpack (NoDup (keys need_categories))). vm_compute. exact I. Qed.

Lemma categories_sep_free (c : string) :
  c ∈ keys need_categories -> sep_free ";"%char c = true.
Proof.
  unfold need_categories. simpl. intros H.
  repeat (apply elem_of_cons in H as [-> | H]; [reflexivity |]).
  inversion H.
Qed.

(** ** The need generator *)

Lemma assign_spec {A} (col : A -> string) (df : option (list A)) :
  triple (assign col df) (assigned_from col df)
         (fun e => e = KeyError /\ df = Some []).
Proof.
  destruct df as [[|x rows]|]; unfold assign.
  - intros g. split; reflexivity.
  - eapply triple_bind; [apply column_spec; discriminate |].
    intros ids [-> Hne].
    eapply triple_bind; [apply choice_spec; exact Hne |].
    intros y Hy. apply triple_ret. exists y. split; [reflexivity | exact Hy].
  - apply triple_ret. reflexivity.
Qed.

Lemma lifecycle_spec status request_date donors_df churches_df :
  triple (lifecycle status request_date donors_df churches_df)
         (lifecycle_inv status request_date donors_df churches_df)
         (empty_table donors_df churches_df).
Proof.
  unfold lifecycle, lifecycle_inv, empty_table.
  destruct (isin status ["Matched"; "In Progress"; "Fulfilled"; "Closed"]);
    [| apply triple_ret; reflexivity].
  eapply triple_bind; [apply randint_spec; lia |]. intros h Hh.
  eapply triple_bind;
    [eapply triple_weaken; [apply assign_spec | intros a Ha; exact Ha | ] |].
  { intros e [-> ->]. auto. }
  intros d Hd.
  eapply triple_bind;
    [eapply triple_weaken; [apply assign_spec | intros a Ha; exact Ha | ] |].
  { intros e [-> ->]. auto. }
  intros c Hc. unfold calendar.timedelta_hours.
  destruct (isin status ["Fulfilled"; "Closed"]).
  - eapply (triple_bind _ _
      (fun f => exists x, 1 <= x <= 120 /\ f = Some (request_date + h + x)));
      [eapply triple_bind; [apply randint_spec; lia |] |].
    + intros h' Hh'. apply triple_ret. exists h'. split; [exact Hh' | reflexivity].
    + intros f (h' & Hh' & ->). apply triple_ret.
      exists h. simpl. eauto 10.
  - eapply (triple_bind _ _ (fun f => f = None)); [apply triple_ret; reflexivity |].
    intros f ->. apply triple_ret. exists h. simpl. eauto 10.
Qed.

(** The loop rule for [for i in range(1, n + 1)]: row [k] (from 0) is the
    one built for [i = k + 1]. *)
Lemma triple_range1 {B} (n : nat) (body : list B -> nat -> M B)
    (Q : nat -> B -> Prop) E :
  (forall acc i, (1 <= i <= n)%nat -> triple (body acc i) (Q i) E) ->
  triple (for_append (range1 n) body [])
    (fun rows => length rows = n /\
                 forall k r, rows !! k = Some r -> Q (S k) r) E.
Proof.
  intros Hbody.
  eapply triple_weaken;
    [apply (triple_for_append (range1 n) body (fun _ i r => Q i r)) | | auto].
  - intros acc i Hi. apply Hbody.
    apply list_elem_of_In, in_seq in Hi. lia.
  - intros rows (bs & -> & Hlen & Hall). simpl.
    unfold range1 in *. rewrite length_seq in Hlen. split; [exact Hlen |].
    intros k r Hr. apply (Hall k (S k) r); [| exact Hr].
    apply lookup_seq. split; [reflexivity |].
    apply lookup_lt_Some in Hr. lia.
  - auto.
Qed.

Lemma generate_needs_spec n donors_df churches_df :
  triple (generate_needs n donors_df churches_df)
    (fun rows => length rows = n /\
                 forall k r, rows !! k = Some r ->
                             need_inv donors_df churches_df (S k) r)
    (empty_table donors_df churches_df).
Proof.
  unfold generate_needs. apply triple_range1. intros acc i Hi.
  eapply triple_bind; [apply choice_spec; discriminate |]. intros category Hcat.
  eapply triple_bind; [apply getitem_spec; exact Hcat |]. intros items Hitems.
  eapply triple_bind;
    [apply choice_spec; exact (need_categories_items _ _ Hitems) |].
  intros item _.
  eapply triple_bind; [apply choice_spec; discriminate |]. intros city Hcity.
  eapply triple_bind; [apply randint_spec; lia |]. intros days Hdays.
  eapply triple_bind; [apply choice_spec; discriminate |]. intros status Hstatus.
  eapply triple_bind; [apply lifecycle_spec |]. intros v Hv.
  eapply triple_bind; [apply randint_spec; lia |]. intros quantity _.
  eapply triple_bind; [apply choice_spec; discriminate |]. intros urgency _.
  eapply triple_bind; [apply randint_spec; lia |]. intros family _.
  eapply triple_bind; [apply choice_spec; exact (cities_zips _ Hcity) |].
  intros zip_code _.
  eapply triple_bind; [apply random_spec |]. intros r _.
  apply triple_ret. unfold need_inv. cbn [Need.need_id Need.status
    Need.request_date Need.matched_date Need.fulfilled_date
    Need.assigned_donor_id Need.assigned_church_id].
  split; [reflexivity |]. split; [exact Hstatus |].
  exists days, v. unfold calendar.timedelta_days in *. auto 10.
Qed.

(** ** Consequences for the rows of the need table *)

Lemma status_cases (s : string) :
  s ∈ statuses ->
  (s = "Requested" \/ s = "Cancelled")%string /\ isin s progressed = false \/
  isin s progressed = true.
Proof.
  unfold statuses. intros H.
  repeat (apply elem_of_cons in H as [-> | H]; [vm_compute; tauto |]).
  inversion H.
Qed.

Lemma need_inv_rest donors_df churches_df i r :
  need_inv donors_df churches_df i r ->
  isin (Need.status r) progressed = false -> lifecycle_unset r.
Proof.
  intros (_ & _ & days & v & _ & Hv & _ & Hm & Hf & Hd & Hc) Hs.
  unfold lifecycle_inv in Hv. fold progressed in Hv. rewrite Hs in Hv. subst v.
  repeat split; assumption.
Qed.

Lemma need_inv_progressed donors_df churches_df i r :
  need_inv donors_df churches_df i r ->
  isin (Need.status r) progressed = true ->
  Need.matched_date r <> None /\
  assigned_from Donor.donor_id donors_df (Need.assigned_donor_id r) /\
  assigned_from Church.church_id churches_df (Need.assigned_church_id r).
Proof.
  intros (_ & _ & days & v & _ & Hv & _ & Hm & Hf & Hd & Hc) Hs.
  unfold lifecycle_inv in Hv. fold progressed in Hv. rewrite Hs in Hv.
  destruct Hv as (h & _ & Hmv & Hdv & Hcv & _).
  rewrite Hm, Hmv, Hd, Hc. repeat split; [discriminate | assumption | assumption].
Qed.

(** Every run of the need generator, read off [generate_needs_spec]. *)
Lemma generate_needs_rows n donors_df churches_df g :
  match generate_needs n donors_df churches_df g with
  | Ok (rows, _) =>
      length rows = n /\
      Forall (fun r => exists i, need_inv donors_df churches_df i r) rows
  | Raise e => empty_table donors_df churches_df e
  end.
Proof.
  pose proof (generate_needs_spec n donors_df churches_df g) as H.
  destruct (generate_needs n donors_df churches_df g) as [[rows g']|e]; [| exact H].
  destruct H as [Hlen Hall]. split; [exact Hlen |].
  apply Forall_lookup. intros k r Hr. exists (S k). apply Hall, Hr.
Qed.

(** With both tables supplied and holding a row each, or both absent, the
    need generator returns. *)
Lemma generate_needs_returns n donors_df churches_df g :
  donors_df <> Some [] -> churches_df <> Some [] ->
  exists rows g', generate_needs n donors_df churches_df g = Ok (rows, g').
Proof.
  intros Hd Hc. pose proof (generate_needs_rows n donors_df churches_df g) as H.
  destruct (generate_needs n donors_df churches_df g) as [[rows g']|e]; [eauto |].
  destruct H as [_ [H | H]]; contradiction.
Qed.

(** ** Claims about the need table *)

(** C9: a generated need whose status is "Cancelled" has no matched
    timestamp, no fulfilled timestamp, no assigned donor and no assigned
    church, exactly as one whose status is "Requested"; this holds for
    every run that returns, whatever tables are passed, and the generator
    raises only on a table that is present but empty. *)
Theorem cancelled_needs_carry_nothing n donors_df churches_df g :
  match generate_needs n donors_df churches_df g with
  | Ok (rows, _) =>
      Forall (fun r =>
        (Need.status r = "Cancelled" \/ Need.status r = "Requested")%string ->
        lifecycle_unset r) rows
  | Raise e => empty_table donors_df churches_df e
  end.
Proof.
  pose proof (generate_needs_rows n donors_df churches_df g) as H.
  destruct (generate_needs n donors_df churches_df g) as [[rows g']|e]; [| exact H].
  destruct H as [_ Hall]. eapply Forall_impl; [exact Hall |].
  intros r [i Hr] Hs. apply (need_inv_rest _ _ _ _ Hr).
  destruct Hs as [-> | ->]; reflexivity.
Qed.

(** C2, as the specification words it, fails: a "Cancelled" need has all
    four fields unset as well.  The run below draws 5 at every step; its
    one row has status "Cancelled". *)
Lemma requested_iff_unset_refuted :
  (exists r g',
     generate_needs 1 (Some [example_donor]) (Some [example_church]) (const_rng 5)
       = Ok ([r], g') /\
     Need.status r = "Cancelled"%string /\ lifecycle_unset r) /\
  ~ (forall n d ds c cs g, exists rows g',
       generate_needs n (Some (d :: ds)) (Some (c :: cs)) g = Ok (rows, g') /\
       Forall (fun r => Need.status r = "Requested"%string <-> lifecycle_unset r)
              rows).
Proof.
  split.
  - eexists _, _. split; [vm_compute; reflexivity |].
    split; [reflexivity | repeat split].
  - intros H.
    destruct (H 1%nat example_donor [] example_church [] (const_rng 5))
      as (rows & g' & Heq & Hall).
    vm_compute in Heq. injection Heq as <- _.
    apply Forall_cons in Hall as [[_ Hr] _].
    discriminate Hr. repeat split.
Qed.

(** C2, amended: with both tables supplied and non-empty the need
    generator returns, and in every row the matched timestamp, fulfilled
    timestamp, assigned donor and assigned church are all unset if and only
    if the status is "Requested" or "Cancelled". *)
Theorem unset_iff_requested_or_cancelled n d ds c cs g :
  exists rows g',
    generate_needs n (Some (d :: ds)) (Some (c :: cs)) g = Ok (rows, g') /\
    length rows = n /\
    Forall (fun r =>
      (Need.status r = "Requested" \/ Need.status r = "Cancelled")%string <->
      lifecycle_unset r) rows.
Proof.
  pose proof (generate_needs_rows n (Some (d :: ds)) (Some (c :: cs)) g) as H.
  destruct (generate_needs n (Some (d :: ds)) (Some (c :: cs)) g)
    as [[rows g']|e]; [| destruct H as [_ [H | H]]; discriminate].
  destruct H as [Hlen Hall]. exists rows, g'. repeat split; [exact Hlen |].
  eapply Forall_impl; [exact Hall |]. intros r [i Hr].
  pose proof Hr as (_ & Hst & _).
  destruct (status_cases _ Hst) as [[Hs Hp] | Hp].
  - split; [intros _; exact (need_inv_rest _ _ _ _ Hr Hp) | intros _; exact Hs].
  - destruct (need_inv_progressed _ _ _ _ Hr Hp) as (Hm & _). split.
    + intros [Hs | Hs]; rewrite Hs in Hp; discriminate Hp.
    + intros (Hm' & _). contradiction.
Qed.

(** C1, as the specification words it, fails: with both tables present
    but empty the call does not complete once a row draws a status past
    "Requested".  The run below draws 1 at every step; its first status is
    "Matched", and reading the donor column raises. *)
Lemma empty_tables_refuted :
  generate_needs 10 (Some []) (Some []) (const_rng 1) = Raise KeyError /\
  ~ (forall g, exists rows g',
       generate_needs 10 (Some []) (Some []) g = Ok (rows, g') /\
       Forall unassigned rows).
Proof.
  split; [vm_compute; reflexivity |].
  intros H. destruct (H (const_rng 1)) as (rows & g' & Heq & _).
  vm_compute in Heq. discriminate Heq.
Qed.

(** C3, as the specification words it, fails for the stored values: the
    table keeps calendar dates, and an offset of a few hours stays within
    the day.  The run below draws 3 at every step; its one row is
    "Fulfilled" and all three stored dates are 2024-01-04. *)
Lemma stored_dates_strictly_ordered_refuted :
  (exists r g',
     generate_needs 1 (Some [example_donor]) (Some [example_church]) (const_rng 3)
       = Ok ([r], g') /\
     Need.status r = "Fulfilled"%string /\
     Need.request_date r = "2024-01-04"%string /\
     Need.matched_date r = Some "2024-01-04"%string /\
     Need.fulfilled_date r = Some "2024-01-04"%string) /\
  ~ (forall n donors_df churches_df g rows g',
       generate_needs n donors_df churches_df g = Ok (rows, g') ->
       Forall (fun r =>
         (Need.status r = "Fulfilled" \/ Need.status r = "Closed")%string ->
         exists m f, Need.matched_date r = Some m /\
                     Need.fulfilled_date r = Some f /\
                     stored_before (Need.request_date r) m /\
                     stored_before m f) rows).
Proof.
  split.
  - eexists _, _. split; [vm_compute; reflexivity |]. repeat split.
  - intros H.
    assert (Hrun : exists r g',
      generate_needs 1 (Some [example_donor]) (Some [example_church]) (const_rng 3)
        = Ok ([r], g') /\
      Need.status r = "Fulfilled"%string /\
      Need.request_date r = "2024-01-04"%string /\
      Need.matched_date r = Some "2024-01-04"%string).
    { eexists _, _. split; [vm_compute; reflexivity |]. repeat split. }
    destruct Hrun as (r & g' & Heq & Hs & Hq & Hm).
    specialize (H _ _ _ _ _ _ Heq). apply Forall_cons in H as [H _].
    destruct (H (or_introl Hs)) as (m & f & Hm' & _ & (x & y & Hx & Hy & Hlt) & _).
    rewrite Hm in Hm'. injection Hm' as <-. rewrite Hq in Hx.
    rewrite Hx in Hy. injection Hy as <-. lia.
Qed.

(** ** The donor generator *)

Lemma generate_donors_spec n :
  triple (generate_donors n)
    (fun rows => length rows = n /\
                 forall k r, rows !! k = Some r -> donor_inv (S k) r)
    no_exn.
Proof.
  unfold generate_donors. apply triple_range1. intros acc i Hi.
  eapply triple_bind; [apply choice_spec; discriminate |]. intros city Hcity.
  eapply triple_bind; [apply randint_spec; lia |]. intros k Hk. cbv beta in Hk.
  eapply triple_bind.
  { apply sample_spec; [simpl; lia | exact categories_NoDup]. }
  intros picked (Hlen & Hnd & Hin).
  eapply triple_bind; [apply randint_spec; lia |]. intros phone _.
  eapply triple_bind; [apply choice_spec; exact (cities_zips _ Hcity) |].
  intros zip_code _.
  eapply triple_bind; [apply randint_spec; lia |]. intros avg _.
  eapply triple_bind; [apply randint_spec; lia |]. intros total _.
  eapply triple_bind; [apply randint_spec; lia |]. intros days _.
  eapply triple_bind; [apply random_spec |]. intros r _.
  apply triple_ret. split; [reflexivity |].
  exists picked. cbn [Donor.specialties].
  repeat split; [lia | lia | exact Hnd | exact Hin].
Qed.

(** C7: the donor generator returns, and in every row the specialties
    field, read by splitting at [";"], is a list of between 1 and 3
    categories, all from the fixed category list, with no duplicates. *)
Theorem donor_specialties_distinct n g :
  exists rows g',
    generate_donors n g = Ok (rows, g') /\ length rows = n /\
    Forall (fun r =>
      let l := split ";" (Donor.specialties r) in
      (1 <= length l <= 3)%nat /\ NoDup l /\
      forall c, c ∈ l -> c ∈ keys need_categories) rows.
Proof.
  destruct (triple_returns _ _ (generate_donors_spec n) g)
    as (rows & g' & Heq & Hlen & Hall).
  exists rows, g'. repeat split; [exact Heq | exact Hlen |].
  apply Forall_lookup. intros k r Hr.
  destruct (Hall k r Hr) as (_ & picked & Hsp & Hlp & Hnd & Hin).
  cbv zeta. rewrite Hsp.
  change (join ";" picked) with (join (String ";" EmptyString) picked).
  rewrite split_join.
  - repeat split; [lia | lia | exact Hnd | exact Hin].
  - intros ->. simpl in Hlp. lia.
  - apply Forall_forall. intros c Hc. apply categories_sep_free, Hin, Hc.
Qed.

(** ** The church generator *)

Lemma church_names_length : length church_names = 12%nat.
Proof. reflexivity. Qed.

Lemma generate_churches_spec n :
  triple (generate_churches n)
    (fun rows => length rows = n /\
                 forall k r, rows !! k = Some r -> church_inv (S k) r)
    no_exn.
Proof.
  unfold generate_churches. apply triple_range1. intros acc i Hi.
  eapply triple_bind; [apply choice_spec; discriminate |]. intros city Hcity.
  eapply triple_bind.
  { apply getindex_spec. apply Nat.mod_upper_bound. discriminate. }
  intros base_name Hbase.
  eapply triple_bind; [apply choice_spec; exact (cities_zips _ Hcity) |].
  intros zip_code _.
  eapply triple_bind; [apply randint_spec; lia |]. intros phone _.
  eapply triple_bind; [apply randint_spec; lia |]. intros volunteers _.
  eapply triple_bind; [apply randint_spec; lia |]. intros total _.
  apply triple_ret. split; [reflexivity |].
  split; [exists city; split; [exact Hcity | reflexivity] |].
  exists base_name. split; [exact Hbase | reflexivity].
Qed.

(** C6: the church generator returns, and the row with 1-based index [i]
    (row [i - 1] of the table, identifier "C" and [i] on three digits)
    takes as base name the entry of the fixed name list at position
    [i mod 12]; its stored name is that base name followed by [" - "] and
    the row's city when [i] exceeds the length of the list (12), and the
    base name alone otherwise. *)
Theorem church_names_cycle n g :
  exists rows g',
    generate_churches n g = Ok (rows, g') /\ length rows = n /\
    forall k r, rows !! k = Some r ->
      Church.church_id r = "C" +:+ zfill 3 (str_nat (S k)) /\
      exists base_name,
        church_names !! (S k mod 12)%nat = Some base_name /\
        Church.name r =
          if (12 <? S k)%nat
          then base_name +:+ " - " +:+ Church.city r
          else base_name.
Proof.
  destruct (triple_returns _ _ (generate_churches_spec n) g)
    as (rows & g' & Heq & Hlen & Hall).
  exists rows, g'. split; [exact Heq | split; [exact Hlen |]].
  intros k r Hr. destruct (Hall k r Hr) as (Hid & _ & base_name & Hb & Hn).
  rewrite church_names_length in Hb, Hn. split; [exact Hid |].
  exists base_name. split; assumption.
Qed.

(** ** Row selection *)

Lemma select_from_cons {A} (mask : A -> bool) s x (df : list A) :
  select_from mask s (x :: df) =
  if mask x then (s, x) :: select_from mask (S s) df
  else select_from mask (S s) df.
Proof.
  unfold select_from. simpl. rewrite filter_cons. simpl.
  destruct (mask x); [rewrite decide_True by done | rewrite decide_False by done];
    reflexivity.
Qed.

Lemma select_from_snd {A} (mask : A -> bool) (df : list A) :
  forall s, map snd (select_from mask s df) = filter (fun x => mask x = true) df.
Proof.
  induction df as [|x df IH]; intros s; [reflexivity |].
  rewrite select_from_cons, filter_cons. destruct (mask x) eqn:Hx.
  - rewrite decide_True by done. simpl. f_equal. apply IH.
  - rewrite decide_False by discriminate. apply IH.
Qed.

Lemma select_from_elem {A} (mask : A -> bool) s (df : list A) i x :
  (i, x) ∈ select_from mask s df <->
  (s <= i)%nat /\ df !! (i - s)%nat = Some x /\ mask x = true.
Proof.
  unfold select_from. rewrite list_elem_of_filter, list_elem_of_lookup. simpl.
  split.
  - intros (Hm & k & Hk). apply lookup_zip_Some in Hk as [Hs Hx].
    apply lookup_seq in Hs as [-> Hlt].
    replace (s + k - s)%nat with k by lia. repeat split; [lia | done | done].
  - intros (Hs & Hx & Hm). split; [done |]. exists (i - s)%nat.
    apply lookup_zip_Some. split; [| done].
    apply lookup_seq. apply lookup_lt_Some in Hx. lia.
Qed.

Lemma select_from_increasing {A} (mask : A -> bool) (df : list A) :
  forall s k1 k2 p1 p2,
    (k1 < k2)%nat ->
    select_from mask s df !! k1 = Some p1 ->
    select_from mask s df !! k2 = Some p2 ->
    (fst p1 < fst p2)%nat.
Proof.
  induction df as [|x df IH]; intros s k1 k2 p1 p2 Hk H1 H2.
  - unfold select_from in H1. simpl in H1. destruct k1; discriminate H1.
  - rewrite select_from_cons in H1, H2. destruct (mask x).
    + destruct k2 as [|k2]; [lia |]. simpl in H2. destruct k1 as [|k1].
      * injection H1 as <-. simpl.
        destruct p2 as [i y]. assert ((i, y) ∈ select_from mask (S s) df) as Hin
          by (apply list_elem_of_lookup; eauto).
        apply select_from_elem in Hin. simpl. lia.
      * simpl in H1. apply (IH (S s) k1 k2); [lia | done | done].
    + apply (IH (S s) k1 k2); done.
Qed.

Lemma select_rows_from {A} (mask : A -> bool) (df : list A) :
  select_rows mask df = select_from mask 0 df.
Proof. reflexivity. Qed.

(** ** The fulfillment deriver *)

Lemma pd_to_datetime_spec (E : exn -> Prop) (v : option string) (t : Z) :
  v ≫= calendar.to_timestamp = Some t ->
  triple (pd_to_datetime v) (fun r => r = Some t) E.
Proof.
  destruct v as [s|]; simpl; [| discriminate]. intros ->.
  apply triple_ret. reflexivity.
Qed.

Lemma generate_fulfillments_spec needs_df :
  well_formed needs_df = true ->
  triple (generate_fulfillments needs_df)
    (fun fs =>
       let kept := select_rows completed needs_df in
       length fs = length kept /\
       forall k row f, kept !! k = Some row -> fs !! k = Some f ->
                       fulfillment_of k (snd row) f)
    no_exn.
Proof.
  intros Hwf. apply andb_prop in Hwf as [Hne Hall].
  unfold generate_fulfillments.
  eapply triple_bind.
  { apply column_spec. intros ->. discriminate Hne. }
  intros status _. fold completed.
  eapply triple_weaken;
    [apply (triple_for_append _ _ (fun k row f => fulfillment_of k (snd row) f)
              no_exn)
    | | auto].
  - intros acc [i need] Hin. rewrite select_rows_from in Hin.
    apply select_from_elem in Hin as (_ & Hrow & Hdone). cbn [snd].
    assert (dates_parse need = true) as Hdates.
    { pose proof (proj1 (forallb_forall _ _) Hall need) as H.
      cbv beta in H. rewrite Hdone in H. apply H.
      apply list_elem_of_In, list_elem_of_lookup. eauto. }
    unfold dates_parse in Hdates.
    destruct (calendar.to_timestamp (Need.request_date need)) as [tq|] eqn:Hq;
      [| discriminate].
    destruct (Need.matched_date need ≫= calendar.to_timestamp) as [tm|] eqn:Hm;
      [| discriminate].
    destruct (Need.fulfilled_date need ≫= calendar.to_timestamp) as [tf|] eqn:Hf;
      [| discriminate].
    eapply triple_bind; [apply pd_to_datetime_spec; exact Hq |]. intros ? ->.
    eapply triple_bind; [apply pd_to_datetime_spec; exact Hm |]. intros ? ->.
    eapply triple_bind; [apply pd_to_datetime_spec; exact Hf |]. intros ? ->.
    eapply (triple_bind _ _ (fun _ => True)); [apply triple_ret; exact I |].
    intros h1 _.
    eapply (triple_bind _ _ (fun _ => True)); [apply triple_ret; exact I |].
    intros h2 _.
    eapply triple_bind; [apply randint_spec; lia |]. intros rating Hr.
    apply triple_ret. cbv beta in Hr. unfold fulfillment_of.
    cbn [Fulfillment.fulfillment_id Fulfillment.need_id Fulfillment.donor_id
         Fulfillment.church_id Fulfillment.request_date Fulfillment.matched_date
         Fulfillment.fulfilled_date Fulfillment.category
         Fulfillment.response_time_hours Fulfillment.fulfillment_time_hours
         Fulfillment.donor_rating].
    repeat split; try reflexivity; lia.
  - intros fs (bs & -> & Hlen & Hbs). simpl. split; [exact Hlen |].
    intros k row f Hrow Hf. apply (Hbs k row f Hrow Hf).
Qed.

(** The deriver's result, position by position against the retained rows. *)
Lemma generate_fulfillments_rows needs_df g :
  well_formed needs_df = true ->
  exists fs g',
    generate_fulfillments needs_df g = Ok (fs, g') /\
    length fs = length (select_rows completed needs_df) /\
    forall k f, fs !! k = Some f ->
      exists row, select_rows completed needs_df !! k = Some row /\
                  fulfillment_of k (snd row) f.
Proof.
  intros Hwf.
  destruct (triple_returns _ _ (generate_fulfillments_spec needs_df Hwf) g)
    as (fs & g' & Heq & Hlen & Hall).
  exists fs, g'. repeat split; [exact Heq | exact Hlen |].
  intros k f Hf.
  destruct (lookup_lt_is_Some_2 (select_rows completed needs_df) k) as [row Hrow].
  { rewrite <- Hlen. apply lookup_lt_Some in Hf. exact Hf. }
  exists row. split; [exact Hrow | apply (Hall k row f Hrow Hf)].
Qed.

(** C4: from a well-formed need table the deriver returns; in every
    fulfillment record the response duration and the fulfillment duration
    are integers of at least 1, and there are as many records as input
    needs whose status is "Fulfilled" or "Closed". *)
Theorem fulfillment_durations_and_count needs_df g :
  well_formed needs_df = true ->
  exists fs g',
    generate_fulfillments needs_df g = Ok (fs, g') /\
    Forall (fun f => 1 <= Fulfillment.response_time_hours f /\
                     1 <= Fulfillment.fulfillment_time_hours f) fs /\
    length fs = length (filter (fun need => completed need = true) needs_df).
Proof.
  intros Hwf.
  destruct (generate_fulfillments_rows needs_df g Hwf)
    as (fs & g' & Heq & Hlen & Hall).
  exists fs, g'. repeat split; [exact Heq | |].
  - apply Forall_lookup. intros k f Hf.
    destruct (Hall k f Hf) as (row & _ & Hrow).
    unfold fulfillment_of in Hrow. tauto.
  - rewrite Hlen, select_rows_from, <- (select_from_snd completed needs_df 0).
    symmetry. apply length_map.
Qed.

(** The statement of C4 on [example_needs]. *)
Lemma fulfillment_durations_and_count_example :
  exists fs g',
    generate_fulfillments example_needs (const_rng 0) = Ok (fs, g') /\
    Forall (fun f => 1 <= Fulfillment.response_time_hours f /\
                     1 <= Fulfillment.fulfillment_time_hours f) fs /\
    length fs = length (filter (fun need => completed need = true) example_needs).
Proof.
  apply (fulfillment_durations_and_count example_needs (const_rng 0)).
  vm_compute. reflexivity.
Defined.

(** C8: every fulfillment record copies category, donor identifier,
    church identifier, request date, matched date and fulfilled date from
    its source need, and the record at position [k] (from 0) among the
    retained rows has identifier "FH" followed by [k + 1] padded to five
    digits, whatever the identifier of the need. *)
Theorem fulfillment_carries_need_fields needs_df g :
  well_formed needs_df = true ->
  exists fs g',
    generate_fulfillments needs_df g = Ok (fs, g') /\
    let kept := filter (fun need => completed need = true) needs_df in
    length fs = length kept /\
    forall k need f, kept !! k = Some need -> fs !! k = Some f ->
      Fulfillment.fulfillment_id f = "FH" +:+ zfill 5 (str_nat (k + 1)) /\
      Fulfillment.category f = Need.category need /\
      Fulfillment.donor_id f = Need.assigned_donor_id need /\
      Fulfillment.church_id f = Need.assigned_church_id need /\
      Fulfillment.request_date f = Need.request_date need /\
      Fulfillment.matched_date f = Need.matched_date need /\
      Fulfillment.fulfilled_date f = Need.fulfilled_date need.
Proof.
  intros Hwf.
  destruct (generate_fulfillments_rows needs_df g Hwf)
    as (fs & g' & Heq & Hlen & Hall).
  exists fs, g'. split; [exact Heq |]. cbv zeta.
  rewrite <- (select_from_snd completed needs_df 0), <- select_rows_from.
  split; [rewrite length_map; exact Hlen |].
  intros k need f Hneed Hf. rewrite list_lookup_fmap in Hneed.
  destruct (Hall k f Hf) as (row & Hrow & Hof). rewrite Hrow in Hneed.
  injection Hneed as <-. unfold fulfillment_of in Hof. tauto.
Qed.

(** The statement of C8 on [example_needs]. *)
Lemma fulfillment_carries_need_fields_example :
  exists fs g',
    generate_fulfillments example_needs (const_rng 0) = Ok (fs, g') /\
    let kept := filter (fun need => completed need = true) example_needs in
    length fs = length kept /\
    forall k need f, kept !! k = Some need -> fs !! k = Some f ->
      Fulfillment.fulfillment_id f = "FH" +:+ zfill 5 (str_nat (k + 1)) /\
      Fulfillment.category f = Need.category need /\
      Fulfillment.donor_id f = Need.assigned_donor_id need /\
      Fulfillment.church_id f = Need.assigned_church_id need /\
      Fulfillment.request_date f = Need.request_date need /\
      Fulfillment.matched_date f = Need.matched_date need /\
      Fulfillment.fulfilled_date f = Need.fulfilled_date need.
Proof.
  apply (fulfillment_carries_need_fields example_needs (const_rng 0)).
  vm_compute. reflexivity.
Defined.

(** C10: the fulfillment records correspond, in order, to the rows of
    the input table whose status is "Fulfilled" or "Closed".  [labels] are
    the positions of those rows in the input: record [k] carries the need
    identifier of the row at [labels[k]], the labels increase strictly (so
    distinct records come from distinct rows, in input order), and every
    completed row has its label (one record per retained need). *)
Theorem fulfillments_reference_completed_needs needs_df g :
  well_formed needs_df = true ->
  exists fs g' (labels : list nat),
    generate_fulfillments needs_df g = Ok (fs, g') /\
    length labels = length fs /\
    (forall k f, fs !! k = Some f ->
       exists i need, labels !! k = Some i /\ needs_df !! i = Some need /\
                      completed need = true /\
                      Fulfillment.need_id f = Need.need_id need) /\
    (forall k1 k2 i1 i2, (k1 < k2)%nat ->
       labels !! k1 = Some i1 -> labels !! k2 = Some i2 -> (i1 < i2)%nat) /\
    (forall i need, needs_df !! i = Some need -> completed need = true ->
                    i ∈ labels).
Proof.
  intros Hwf.
  destruct (generate_fulfillments_rows needs_df g Hwf)
    as (fs & g' & Heq & Hlen & Hall).
  exists fs, g', (map fst (select_rows completed needs_df)).
  split; [exact Heq |]. split; [rewrite length_map; symmetry; exact Hlen |].
  split; [| split].
  - intros k f Hf. destruct (Hall k f Hf) as ([i need] & Hrow & Hof).
    exists i, need. rewrite list_lookup_fmap, Hrow. split; [reflexivity |].
    assert ((i, need) ∈ select_from completed 0 needs_df) as Hin
      by (apply list_elem_of_lookup; eauto).
    apply select_from_elem in Hin as (_ & Hi & Hdone).
    replace (i - 0)%nat with i in Hi by lia.
    unfold fulfillment_of in Hof. simpl in Hof. tauto.
  - intros k1 k2 i1 i2 Hk H1 H2. rewrite list_lookup_fmap in H1, H2.
    destruct (select_rows completed needs_df !! k1) as [p1|] eqn:E1; [| discriminate].
    destruct (select_rows completed needs_df !! k2) as [p2|] eqn:E2; [| discriminate].
    injection H1 as <-. injection H2 as <-.
    apply (select_from_increasing completed needs_df 0 k1 k2); assumption.
  - intros i need Hi Hdone. apply list_elem_of_fmap. exists (i, need).
    split; [reflexivity |]. rewrite select_rows_from. apply select_from_elem.
    replace (i - 0)%nat with i by lia. repeat split; [lia | exact Hi | exact Hdone].
Qed.

(** The statement of C10 on [example_needs]. *)
Lemma fulfillments_reference_completed_needs_example :
  exists fs g' (labels : list nat),
    generate_fulfillments example_needs (const_rng 0) = Ok (fs, g') /\
    length labels = length fs /\
    (forall k f, fs !! k = Some f ->
       exists i need, labels !! k = Some i /\ example_needs !! i = Some need /\
                      completed need = true /\
                      Fulfillment.need_id f = Need.need_id need) /\
    (forall k1 k2 i1 i2, (k1 < k2)%nat ->
       labels !! k1 = Some i1 -> labels !! k2 = Some i2 -> (i1 < i2)%nat) /\
    (forall i need, example_needs !! i = Some need -> completed need = true ->
                    i ∈ labels).
Proof.
  apply (fulfillments_reference_completed_needs example_needs (const_rng 0)).
  vm_compute. reflexivity.
Defined.

(** ** The whole pipeline *)

Lemma need_inv_dates_parse donors_df churches_df i r :
  need_inv donors_df churches_df i r -> completed r = true ->
  dates_parse r = true.
Proof.
  intros (_ & Hst & days & v & Hdays & Hv & Hq & Hm & Hf & _) Hdone.
  unfold completed in Hdone. unfold lifecycle_inv in Hv.
  assert (isin (Need.status r) ["Matched"; "In Progress"; "Fulfilled"; "Closed"]
            = true) as Hp.
  { revert Hdone. unfold statuses in Hst.
    repeat (apply elem_of_cons in Hst as [-> | Hst]; [vm_compute; tauto |]).
    inversion Hst. }
  rewrite Hp, Hdone in Hv.
  destruct Hv as (h & Hh & Hmv & _ & _ & h' & Hh' & Hfv).
  rewrite Hmv in Hm. rewrite Hfv in Hf. unfold dates_parse.
  rewrite Hq, Hm, Hf.
  cbn [fmap option_fmap option_map mbind option_bind].
  rewrite !strftime_roundtrip by lia. reflexivity.
Qed.



(** * Further properties of the generator *)

(** ** Identifiers read back as their index *)

Lemma digit_pretty_char (d : N) :
  (d < 10)%N -> calendar.digit (pretty_N_char d) = Some (Z.of_N d).
Proof.
  intros Hd.
  assert (d = 0 \/ d = 1 \/ d = 2 \/ d = 3 \/ d = 4 \/ d = 5 \/ d = 6 \/ d = 7
          \/ d = 8 \/ d = 9)%N as H by lia.
  repeat (destruct H as [-> | H]; [reflexivity |]). subst d. reflexivity.
Qed.

Lemma digits_pretty_go (x : N) :
  forall s, calendar.digits (pretty_N_go x s) 0 = calendar.digits s (Z.of_N x).
Proof.
  induction (N.lt_wf_0 x) as [x _ IH]. intros s.
  destruct (N.eq_dec x 0%N) as [-> | Hx]; [rewrite pretty_N_go_0; reflexivity |].
  rewrite pretty_N_go_step by lia.
  rewrite IH by (apply N.div_lt; lia). simpl.
  rewrite digit_pretty_char by (apply N.mod_lt; lia).
  f_equal. rewrite <- N2Z.inj_mul with (n := 10%N), <- N2Z.inj_add.
  f_equal. symmetry. apply N.div_mod. lia.
Qed.

Lemma digits_str_nat (n : nat) :
  calendar.digits (str_nat n) 0 = Some (Z.of_nat n).
Proof.
  unfold str_nat, pretty, pretty_nat, pretty, pretty_N.
  case_decide as Hn.
  - simpl. f_equal. lia.
  - rewrite digits_pretty_go. simpl. f_equal. lia.
Qed.

Lemma concat_zeros (k : nat) :
  String.concat "" (replicate (S k) "0"%string)
  = String "0" (String.concat "" (replicate k "0"%string)).
Proof. destruct k; reflexivity. Qed.

Lemma digits_zfill (width : nat) (s : string) :
  calendar.digits (zfill width s) 0 = calendar.digits s 0.
Proof.
  unfold zfill. induction (width - String.length s)%nat as [|k IH]; [reflexivity |].
  rewrite concat_zeros. simpl. exact IH.
Qed.

(** [str(i).zfill(width)] determines [i]. *)
Lemma zfill_str_nat_inj (width : nat) (i j : nat) :
  zfill width (str_nat i) = zfill width (str_nat j) -> i = j.
Proof.
  intros H. apply (f_equal (fun s => calendar.digits s 0)) in H.
  rewrite !digits_zfill, !digits_str_nat in H. injection H. lia.
Qed.

(** Rows whose key is a prefix followed by the padded row number have
    pairwise distinct keys. *)
Lemma NoDup_numbered {A} (rows : list A) (key : A -> string)
    (prefix : string) (width : nat) :
  (forall k r, rows !! k = Some r ->
               key r = prefix +:+ zfill width (str_nat (S k))) ->
  NoDup (key <$> rows).
Proof.
  intros Hkey. apply NoDup_alt. intros i j x Hi Hj.
  rewrite list_lookup_fmap in Hi, Hj.
  destruct (rows !! i) as [ri|] eqn:Ei; [| discriminate].
  destruct (rows !! j) as [rj|] eqn:Ej; [| discriminate].
  simpl in Hi, Hj. injection Hi as Hi. injection Hj as Hj.
  rewrite (Hkey _ _ Ei) in Hi. rewrite (Hkey _ _ Ej) in Hj.
  rewrite <- Hj in Hi. apply String.app_inj in Hi.
  apply zfill_str_nat_inj in Hi. lia.
Qed.

(** ** Domains of the generated fields *)

Lemma within_2024_intro (d : Z) :
  0 <= d <= 364 -> within_2024 (calendar.strftime_ymd (base_date + 24 * d)).
Proof.
  intros Hd. pose proof base_date_eq as Hb.
  assert (calendar.to_timestamp (calendar.strftime_ymd (base_date + 24 * d))
          = Some (86400 * (19723 + d))) as Ht.
  { rewrite strftime_roundtrip by lia. do 2 f_equal.
    rewrite Hb. replace (24 * 19723 + 24 * d) with ((19723 + d) * 24) by lia.
    apply Z.div_mul. lia. }
  assert (calendar.to_timestamp "2024-01-01" = Some (86400 * 19723)) as Hlo
    by (vm_compute; reflexivity).
  assert (calendar.to_timestamp "2024-12-30" = Some (86400 * (19723 + 364))) as Hhi
    by (vm_compute; reflexivity).
  split.
  - exists (86400 * 19723), (86400 * (19723 + d)).
    split; [exact Hlo |]. split; [exact Ht | lia].
  - exists (86400 * (19723 + d)), (86400 * (19723 + 364)).
    split; [exact Ht |]. split; [exact Hhi | lia].
Qed.

Lemma generate_donors_domain n :
  triple (generate_donors n)
    (fun rows => length rows = n /\
                 forall k r, rows !! k = Some r -> donor_domain r)
    no_exn.
Proof.
  unfold generate_donors.
  apply (triple_range1 n _ (fun _ r => donor_domain r)). intros acc i Hi.
  eapply triple_bind; [apply choice_spec; discriminate |]. intros city Hcity.
  eapply triple_bind; [apply randint_spec; lia |]. intros k Hk. cbv beta in Hk.
  eapply triple_bind.
  { apply sample_spec; [simpl; lia | exact categories_NoDup]. }
  intros picked _.
  eapply triple_bind; [apply randint_spec; lia |]. intros phone Hphone.
  eapply triple_bind; [apply choice_spec; exact (cities_zips _ Hcity) |].
  intros zip_code Hzip.
  eapply triple_bind; [apply randint_spec; lia |]. intros avg Havg.
  eapply triple_bind; [apply randint_spec; lia |]. intros total Htotal.
  eapply triple_bind; [apply randint_spec; lia |]. intros days Hdays.
  eapply triple_bind; [apply random_spec |]. intros r _.
  apply triple_ret. unfold donor_domain.
  cbn [Donor.city Donor.state Donor.zip_code Donor.phone
       Donor.avg_response_time_hours Donor.total_fulfilled
       Donor.last_donation_date].
  split; [exists city; auto |]. split; [exists phone; auto |].
  split; [exact Havg |]. split; [exact Htotal |].
  apply within_2024_intro, Hdays.
Qed.

Lemma generate_churches_domain n :
  triple (generate_churches n)
    (fun rows => length rows = n /\
                 forall k r, rows !! k = Some r -> church_domain (S k) r)
    no_exn.
Proof.
  unfold generate_churches. apply triple_range1. intros acc i Hi.
  eapply triple_bind; [apply choice_spec; discriminate |]. intros city Hcity.
  eapply triple_bind.
  { apply getindex_spec. apply Nat.mod_upper_bound. discriminate. }
  intros base_name _.
  eapply triple_bind; [apply choice_spec; exact (cities_zips _ Hcity) |].
  intros zip_code Hzip.
  eapply triple_bind; [apply randint_spec; lia |]. intros phone Hphone.
  eapply triple_bind; [apply randint_spec; lia |]. intros volunteers Hvol.
  eapply triple_bind; [apply randint_spec; lia |]. intros total Htotal.
  apply triple_ret. unfold church_domain.
  cbn [Church.city Church.state Church.zip_code Church.contact_phone
       Church.active_volunteers Church.total_fulfilled Church.contact_name].
  split; [exists city; auto |]. split; [exists phone; auto |].
  split; [exact Hvol |]. split; [exact Htotal |].
  exists (Ascii.ascii_of_nat (65 + i mod 26)). split; [reflexivity |].
  apply Ascii.nat_ascii_embedding.
  pose proof (Nat.mod_upper_bound i 26). lia.
Qed.

Lemma generate_needs_domain n donors_df churches_df :
  triple (generate_needs n donors_df churches_df)
    (fun rows => length rows = n /\
                 forall k r, rows !! k = Some r -> need_domain r)
    (empty_table donors_df churches_df).
Proof.
  unfold generate_needs.
  apply (triple_range1 n _ (fun _ r => need_domain r)). intros acc i Hi.
  eapply triple_bind; [apply choice_spec; discriminate |]. intros category Hcat.
  eapply triple_bind; [apply getitem_spec; exact Hcat |]. intros items Hitems.
  eapply triple_bind;
    [apply choice_spec; exact (need_categories_items _ _ Hitems) |].
  intros item Hitem.
  eapply triple_bind; [apply choice_spec; discriminate |]. intros city Hcity.
  eapply triple_bind; [apply randint_spec; lia |]. intros days Hdays.
  eapply triple_bind; [apply choice_spec; discriminate |]. intros status Hstatus.
  eapply triple_bind; [apply lifecycle_spec |]. intros v _.
  eapply triple_bind; [apply randint_spec; lia |]. intros quantity Hq.
  eapply triple_bind; [apply choice_spec; discriminate |]. intros urgency Hu.
  eapply triple_bind; [apply randint_spec; lia |]. intros family Hf.
  eapply triple_bind; [apply choice_spec; exact (cities_zips _ Hcity) |].
  intros zip_code Hzip.
  eapply triple_bind; [apply random_spec |]. intros r _.
  apply triple_ret. unfold need_domain.
  cbn [Need.category Need.item_description Need.quantity Need.urgency
       Need.family_id Need.city Need.state Need.zip_code Need.status
       Need.request_date Need.notes].
  split; [exists items; auto |]. split; [exact Hq |]. split; [exact Hu |].
  split; [exists family; auto |]. split; [exists city; auto |].
  split; [exact Hstatus |].
  split; [apply within_2024_intro, Hdays |].
  destruct (random.gt r random.float_0_7); auto.
Qed.

(** X1: the donor generator returns [n] rows; each has the city, state
    and postal code of one and the same fixed city, a phone "555-" plus a
    number from 1000 to 9999, a response time from 2 to 50, a fulfilled
    count from 0 to 50, and a last donation date from 2024-01-01 to
    2024-12-30 (the last day of the leap year is never drawn). *)
Theorem donor_rows_in_domain n g :
  exists rows g',
    generate_donors n g = Ok (rows, g') /\ length rows = n /\
    Forall donor_domain rows.
Proof.
  destruct (triple_returns _ _ (generate_donors_domain n) g)
    as (rows & g' & Heq & Hlen & Hall).
  exists rows, g'. split; [exact Heq |]. split; [exact Hlen |].
  apply Forall_lookup. exact Hall.
Qed.

(** X2: the church generator returns [n] rows; each has the city, state
    and postal code of one and the same fixed city, a phone "555-" plus a
    number from 1000 to 9999, 10 to 60 volunteers, a fulfilled count from
    0 to 100, and for the row of index [i] the contact "Pastor " followed
    by the capital letter number [i mod 26] (A is 0). *)
Theorem church_rows_in_domain n g :
  exists rows g',
    generate_churches n g = Ok (rows, g') /\ length rows = n /\
    forall k r, rows !! k = Some r -> church_domain (S k) r.
Proof.
  destruct (triple_returns _ _ (generate_churches_domain n) g)
    as (rows & g' & Heq & Hlen & Hall).
  exists rows, g'. auto.
Qed.

(** X3: every generated need has an item from the item list of its own
    category, a quantity from 1 to 6, an urgency of the fixed levels, a
    family identifier "F" plus a number from 1 to 200 on four digits, the
    city, state and postal code of one and the same fixed city, a status
    of the fixed list, a request date from 2024-01-01 to 2024-12-30, and
    notes that are the fixed message or empty. *)
Theorem need_rows_in_domain n donors_df churches_df g :
  match generate_needs n donors_df churches_df g with
  | Ok (rows, _) => length rows = n /\ Forall need_domain rows
  | Raise e => empty_table donors_df churches_df e
  end.
Proof.
  pose proof (generate_needs_domain n donors_df churches_df g) as H.
  destruct (generate_needs n donors_df churches_df g) as [[rows g']|e]; [| exact H].
  destruct H as [Hlen Hall]. split; [exact Hlen |].
  apply Forall_lookup. exact Hall.
Qed.

(** ** Identifiers of the generated rows *)

(** X4: the donor in row [k] (from 0) has identifier "D" followed by
    [k + 1] padded to four digits, and no two donors share an
    identifier, for every count (also beyond 9999 rows, where the number
    takes more digits). *)
Theorem donor_ids_distinct n g :
  exists rows g',
    generate_donors n g = Ok (rows, g') /\
    NoDup (Donor.donor_id <$> rows) /\
    forall k r, rows !! k = Some r ->
                Donor.donor_id r = "D" +:+ zfill 4 (str_nat (S k)).
Proof.
  destruct (triple_returns _ _ (generate_donors_spec n) g)
    as (rows & g' & Heq & _ & Hall).
  assert (forall k r, rows !! k = Some r ->
                      Donor.donor_id r = "D" +:+ zfill 4 (str_nat (S k))) as Hid
    by (intros k r Hr; exact (proj1 (Hall k r Hr))).
  exists rows, g'. split; [exact Heq |]. split; [| exact Hid].
  exact (NoDup_numbered rows Donor.donor_id "D" 4 Hid).
Qed.

(** X5: the church in row [k] (from 0) has identifier "C" followed by
    [k + 1] padded to three digits, and no two churches share an
    identifier. *)
Theorem church_ids_distinct n g :
  exists rows g',
    generate_churches n g = Ok (rows, g') /\
    NoDup (Church.church_id <$> rows) /\
    forall k r, rows !! k = Some r ->
                Church.church_id r = "C" +:+ zfill 3 (str_nat (S k)).
Proof.
  destruct (triple_returns _ _ (generate_churches_spec n) g)
    as (rows & g' & Heq & _ & Hall).
  assert (forall k r, rows !! k = Some r ->
                      Church.church_id r = "C" +:+ zfill 3 (str_nat (S k))) as Hid
    by (intros k r Hr; exact (proj1 (Hall k r Hr))).
  exists rows, g'. split; [exact Heq |]. split; [| exact Hid].
  exact (NoDup_numbered rows Church.church_id "C" 3 Hid).
Qed.

(** X6: the need in row [k] (from 0) has identifier "N" followed by
    [k + 1] padded to five digits, and no two needs share an identifier,
    whatever tables are passed. *)
Theorem need_ids_distinct n donors_df churches_df g :
  match generate_needs n donors_df churches_df g with
  | Ok (rows, _) =>
      NoDup (Need.need_id <$> rows) /\
      forall k r, rows !! k = Some r ->
                  Need.need_id r = "N" +:+ zfill 5 (str_nat (S k))
  | Raise e => empty_table donors_df churches_df e
  end.
Proof.
  pose proof (generate_needs_spec n donors_df churches_df g) as H.
  destruct (generate_needs n donors_df churches_df g) as [[rows g']|e]; [| exact H].
  destruct H as [_ Hall].
  assert (forall k r, rows !! k = Some r ->
                      Need.need_id r = "N" +:+ zfill 5 (str_nat (S k))) as Hid
    by (intros k r Hr; exact (proj1 (Hall k r Hr))).
  split; [| exact Hid].
  exact (NoDup_numbered rows Need.need_id "N" 5 Hid).
Qed.

(** ** Dates and assignments by status *)

Lemma isin_elem (x : string) (l : list string) : isin x l = true <-> x ∈ l.
Proof.
  unfold isin. rewrite existsb_exists. split.
  - intros (y & Hy & Heq). apply String.eqb_eq in Heq as ->.
    apply list_elem_of_In, Hy.
  - intros Hx. exists x. split; [apply list_elem_of_In, Hx | apply String.eqb_refl].
Qed.

Lemma isin_not_elem (x : string) (l : list string) : isin x l = false <-> x ∉ l.
Proof.
  rewrite <- isin_elem. destruct (isin x l); split; intros H; congruence.
Qed.

(** X7: in every generated need the matched date is set exactly when the
    status is "Matched", "In Progress", "Fulfilled" or "Closed", and the
    fulfilled date is set exactly when the status is "Fulfilled" or
    "Closed"; so a fulfilled date never comes without a matched date, and
    a "Matched" or "In Progress" need has a matched date and no fulfilled
    date. *)
Theorem need_dates_follow_status n donors_df churches_df g :
  match generate_needs n donors_df churches_df g with
  | Ok (rows, _) =>
      Forall (fun r =>
        (is_Some (Need.matched_date r) <->
           Need.status r ∈ ["Matched"; "In Progress"; "Fulfilled"; "Closed"]%string) /\
        (is_Some (Need.fulfilled_date r) <->
           Need.status r ∈ ["Fulfilled"; "Closed"]%string)) rows
  | Raise e => empty_table donors_df churches_df e
  end.
Proof.
  pose proof (generate_needs_rows n donors_df churches_df g) as H.
  destruct (generate_needs n donors_df churches_df g) as [[rows g']|e]; [| exact H].
  destruct H as [_ Hall]. eapply Forall_impl; [exact Hall |].
  intros r [i (_ & _ & days & v & _ & Hv & _ & Hm & Hf & _)].
  rewrite <- !isin_elem. unfold lifecycle_inv in Hv.
  destruct (isin (Need.status r) ["Matched"; "In Progress"; "Fulfilled"; "Closed"])
    eqn:Hprog.
  - destruct Hv as (h & _ & Hmv & _ & _ & Hfv).
    rewrite Hmv in Hm. cbn [fmap option_fmap option_map] in Hm.
    split; [split; [intros _; reflexivity | intros _; rewrite Hm; eauto] |].
    destruct (isin (Need.status r) ["Fulfilled"; "Closed"]).
    + destruct Hfv as (h' & _ & Hfv).
      rewrite Hfv in Hf. cbn [fmap option_fmap option_map] in Hf.
      split; [intros _; reflexivity | intros _; rewrite Hf; eauto].
    + rewrite Hfv in Hf. cbn [fmap option_fmap option_map] in Hf. rewrite Hf.
      split; [intros [x Hx]; discriminate Hx | intros Hx; discriminate Hx].
  - subst v. cbn [fst snd fmap option_fmap option_map] in Hm, Hf. rewrite Hm, Hf.
    assert (isin (Need.status r) ["Fulfilled"; "Closed"] = false) as ->.
    { apply isin_not_elem. intros Hd. apply isin_not_elem in Hprog.
      apply Hprog. rewrite !elem_of_cons in Hd. rewrite !elem_of_cons.
      tauto. }
    split; (split; [intros [x Hx]; discriminate Hx | intros Hx; discriminate Hx]).
Qed.

(** ** The fulfillment deriver, row by row *)

Lemma triple_and {A} (m : M A) (Q1 Q2 : A -> Prop) E :
  triple m Q1 E -> triple m Q2 E -> triple m (fun a => Q1 a /\ Q2 a) E.
Proof.
  intros H1 H2 g. specialize (H1 g). specialize (H2 g).
  destruct (m g) as [[a g']|e]; [split; assumption | exact H1].
Qed.

Lemma to_timestamp_days (s : string) (t : Z) :
  calendar.to_timestamp s = Some t -> exists d, t = 86400 * d.
Proof.
  unfold calendar.to_timestamp.
  destruct (calendar.parse_ymd s) as [[[y m] d]|]; [| discriminate].
  match goal with |- (if ?c then _ else _) = _ -> _ => destruct c end;
    [| discriminate].
  intros [= <-]. eexists. reflexivity.
Qed.

Lemma whole_hours_days (d1 d2 : Z) :
  (86400 * d2 - 86400 * d1) ÷ 3600 = 24 * (d2 - d1).
Proof.
  replace (86400 * d2 - 86400 * d1) with (24 * (d2 - d1) * 3600) by lia.
  apply Z.quot_mul. lia.
Qed.

(** What [pd.to_datetime] does with a cell. *)
Lemma pd_to_datetime_outcome (v : option string) :
  triple (pd_to_datetime v)
    (fun r => r = v ≫= calendar.to_timestamp /\
              (v = None \/ is_Some (v ≫= calendar.to_timestamp)))
    (fun e => e = ValueError /\ is_Some v /\ v ≫= calendar.to_timestamp = None).
Proof.
  destruct v as [s|]; unfold pd_to_datetime;
    cbn [mbind option_bind].
  - destruct (calendar.to_timestamp s) as [t|] eqn:Ht.
    + apply triple_ret. split; [reflexivity | right; eauto].
    + apply triple_raise. split; [reflexivity |]. split; [eauto | reflexivity].
  - apply triple_ret. split; [reflexivity | left; reflexivity].
Qed.

Lemma whole_hours_outcome (a b : option Z) :
  triple (whole_hours a b)
    (fun h => exists x y, a = Some x /\ b = Some y /\ h = (x - y) ÷ 3600)
    (fun e => e = ValueError /\ (a = None \/ b = None)).
Proof.
  destruct a as [x|], b as [y|]; unfold whole_hours;
    try (apply triple_raise; split; [reflexivity | auto]).
  apply triple_ret. eauto.
Qed.

(** The deriver is its status lookup followed by the loop over the
    retained rows. *)
Lemma generate_fulfillments_unfold (needs_df : list Need.t) :
  generate_fulfillments needs_df =
  (status <- column Need.status needs_df ;;
   for_append (select_rows completed needs_df) fulfillment_row []).
Proof. reflexivity. Qed.

Lemma dates_parse_cases (need : Need.t) :
  dates_parse need = true <->
  is_Some (calendar.to_timestamp (Need.request_date need)) /\
  is_Some (Need.matched_date need ≫= calendar.to_timestamp) /\
  is_Some (Need.fulfilled_date need ≫= calendar.to_timestamp).
Proof.
  unfold dates_parse.
  destruct (calendar.to_timestamp (Need.request_date need)),
           (Need.matched_date need ≫= calendar.to_timestamp),
           (Need.fulfilled_date need ≫= calendar.to_timestamp);
    split;
    first [ discriminate
          | intros _; reflexivity
          | intros _; split; [eauto | split; eauto]
          | intros (H1 & H2 & H3);
            first [destruct H1 as [? H1]; discriminate H1
                  | destruct H2 as [? H2]; discriminate H2
                  | destruct H3 as [? H3]; discriminate H3] ].
Qed.

Lemma dates_parse_false (need : Need.t) :
  calendar.to_timestamp (Need.request_date need) = None \/
  Need.matched_date need ≫= calendar.to_timestamp = None \/
  Need.fulfilled_date need ≫= calendar.to_timestamp = None ->
  dates_parse need = false.
Proof.
  intros H. destruct (dates_parse need) eqn:Hd; [| reflexivity].
  apply dates_parse_cases in Hd as ([? H1] & [? H2] & [? H3]).
  destruct H as [H | [H | H]]; congruence.
Qed.

(** One row of the deriver: a record when the three dates read, and
    [ValueError] otherwise. *)
Lemma fulfillment_row_outcome (acc : list Fulfillment.t) (row : nat * Need.t) :
  triple (fulfillment_row acc row)
    (fun f => fulfillment_full (length acc) (snd row) f /\
              dates_parse (snd row) = true)
    (fun e => e = ValueError /\ dates_parse (snd row) = false).
Proof.
  destruct row as [i need]. unfold fulfillment_row. cbn [snd].
  eapply triple_bind.
  { eapply triple_weaken; [apply pd_to_datetime_outcome | intros a Ha; exact Ha |].
    intros e (-> & _ & Hn). split; [reflexivity |].
    apply dates_parse_false. left. exact Hn. }
  intros tq [-> Hq]. cbn [mbind option_bind] in Hq |- *.
  destruct Hq as [Hq | [q Hq]]; [discriminate Hq |]. rewrite Hq.
  eapply triple_bind.
  { eapply triple_weaken; [apply pd_to_datetime_outcome | intros a Ha; exact Ha |].
    intros e (-> & _ & Hn). split; [reflexivity |].
    apply dates_parse_false. right. left. exact Hn. }
  intros tm [-> _].
  eapply triple_bind.
  { eapply triple_weaken; [apply pd_to_datetime_outcome | intros a Ha; exact Ha |].
    intros e (-> & _ & Hn). split; [reflexivity |].
    apply dates_parse_false. right. right. exact Hn. }
  intros tf [-> _].
  eapply triple_bind.
  { eapply triple_weaken; [apply whole_hours_outcome | intros a Ha; exact Ha |].
    intros e (-> & [Hn | Hn]); [| discriminate Hn]. split; [reflexivity |].
    apply dates_parse_false. right. left. exact Hn. }
  intros h1 (m & q' & Hm & [= <-] & ->).
  eapply triple_bind.
  { eapply triple_weaken; [apply whole_hours_outcome | intros a Ha; exact Ha |].
    intros e (-> & [Hn | Hn]); [| congruence]. split; [reflexivity |].
    apply dates_parse_false. right. right. exact Hn. }
  intros h2 (f' & m' & Hf & Hm' & ->).
  rewrite Hm in Hm'. injection Hm' as <-.
  eapply triple_bind; [apply randint_spec; lia |]. intros rating Hr.
  cbv beta in Hr. apply triple_ret.
  destruct (to_timestamp_days _ _ Hq) as [dq ->].
  assert (exists dm, m = 86400 * dm) as [dm ->].
  { destruct (Need.matched_date need) as [s|]; [| discriminate Hm].
    exact (to_timestamp_days _ _ Hm). }
  assert (exists df, f' = 86400 * df) as [df ->].
  { destruct (Need.fulfilled_date need) as [s|]; [| discriminate Hf].
    exact (to_timestamp_days _ _ Hf). }
  rewrite !whole_hours_days.
  split; [split |].
  - unfold fulfillment_of.
    cbn [Fulfillment.fulfillment_id Fulfillment.need_id Fulfillment.donor_id
         Fulfillment.church_id Fulfillment.request_date Fulfillment.matched_date
         Fulfillment.fulfilled_date Fulfillment.category
         Fulfillment.response_time_hours Fulfillment.fulfillment_time_hours
         Fulfillment.donor_rating].
    split; [reflexivity |]. split; [reflexivity |]. split; [reflexivity |].
    split; [reflexivity |]. split; [reflexivity |]. split; [reflexivity |].
    split; [reflexivity |]. split; [reflexivity |]. lia.
  - unfold fulfillment_durations, duration_between.
    cbn [Fulfillment.response_time_hours Fulfillment.fulfillment_time_hours
         mbind option_bind].
    split.
    + exists dq, dm. split; [exact Hq |]. split; [exact Hm | reflexivity].
    + exists dm, df. split; [exact Hm |]. split; [exact Hf | reflexivity].
  - apply dates_parse_cases. rewrite Hq, Hm, Hf. eauto.
Qed.

(** ** The fulfillment deriver, table by table *)

Lemma generate_fulfillments_full needs_df :
  well_formed needs_df = true ->
  triple (generate_fulfillments needs_df)
    (fun fs =>
       length fs = length (select_rows completed needs_df) /\
       forall k row f,
         select_rows completed needs_df !! k = Some row -> fs !! k = Some f ->
         fulfillment_full k (snd row) f)
    no_exn.
Proof.
  intros Hwf. apply andb_prop in Hwf as [Hne Hall].
  rewrite generate_fulfillments_unfold.
  eapply triple_bind.
  { apply column_spec. intros ->. discriminate Hne. }
  intros status _.
  eapply triple_weaken;
    [apply (triple_for_append _ _ (fun k row f => fulfillment_full k (snd row) f)
              no_exn)
    | | auto].
  - intros acc [i need] Hin. rewrite select_rows_from in Hin.
    apply select_from_elem in Hin as (_ & Hrow & Hdone).
    assert (dates_parse need = true) as Hdates.
    { pose proof (proj1 (forallb_forall _ _) Hall need) as H.
      cbv beta in H. rewrite Hdone in H. apply H.
      apply list_elem_of_In, list_elem_of_lookup. eauto. }
    eapply triple_weaken; [apply fulfillment_row_outcome | |].
    + intros f [Hf _]. exact Hf.
    + cbn [snd]. intros e [_ He]. congruence.
  - intros fs (bs & -> & Hlen & Hbs). simpl. split; [exact Hlen |].
    intros k row f Hrow Hf. apply (Hbs k row f Hrow Hf).
Qed.

Lemma generate_fulfillments_full_rows needs_df g :
  well_formed needs_df = true ->
  exists fs g',
    generate_fulfillments needs_df g = Ok (fs, g') /\
    length fs = length (filter (fun need => completed need = true) needs_df) /\
    forall k f, fs !! k = Some f ->
      exists need,
        filter (fun need => completed need = true) needs_df !! k = Some need /\
        fulfillment_full k need f.
Proof.
  intros Hwf.
  destruct (triple_returns _ _ (generate_fulfillments_full needs_df Hwf) g)
    as (fs & g' & Heq & Hlen & Hall).
  exists fs, g'. split; [exact Heq |].
  rewrite <- (select_from_snd completed needs_df 0), <- select_rows_from.
  split; [rewrite length_map; exact Hlen |].
  intros k f Hf.
  destruct (lookup_lt_is_Some_2 (select_rows completed needs_df) k) as [row Hrow].
  { rewrite <- Hlen. apply lookup_lt_Some in Hf. exact Hf. }
  exists (snd row). rewrite list_lookup_fmap, Hrow.
  split; [reflexivity | apply (Hall k row f Hrow Hf)].
Qed.

Lemma for_append_raises {A B} (xs : list A) (body : list B -> A -> M B)
    (bad : A -> Prop) (e0 : exn) :
  (forall acc x, x ∈ xs ->
     triple (body acc x) (fun _ => ~ bad x) (fun e => e = e0)) ->
  (exists x, x ∈ xs /\ bad x) ->
  forall acc g, for_append xs body acc g = Raise e0.
Proof.
  induction xs as [|x xs IH]; intros Hbody (y & Hy & Hbad) acc g.
  - inversion Hy.
  - simpl. unfold bind.
    pose proof (Hbody acc x ltac:(left) g) as Hx.
    destruct (body acc x g) as [[b g']|e].
    + apply IH.
      * intros acc' x' Hx'. apply Hbody. right. exact Hx'.
      * apply elem_of_cons in Hy as [-> | Hy]; [contradiction | eauto].
    + rewrite Hx. reflexivity.
Qed.

Lemma forallb_false_elem {A} (p : A -> bool) (l : list A) :
  forallb p l = false -> exists x, x ∈ l /\ p x = false.
Proof.
  induction l as [|x l IH]; simpl; [discriminate |].
  destruct (p x) eqn:Hx; simpl.
  - intros H. destruct (IH H) as (y & Hy & Hp). exists y. split; [right |]; assumption.
  - intros _. exists x. split; [left | exact Hx].
Qed.

Lemma for_append_snd (xs : list (nat * Need.t)) :
  forall acc g,
    for_append xs fulfillment_row acc g =
    for_append (map snd xs) (fun a need => fulfillment_row a (0%nat, need)) acc g.
Proof.
  induction xs as [|[i need] xs IH]; intros acc g; [reflexivity |].
  simpl. unfold bind.
  change (fulfillment_row acc (i, need) g)
    with (fulfillment_row acc (0%nat, need) g).
  destruct (fulfillment_row acc (0%nat, need) g) as [[b g']|e];
    [apply IH | reflexivity].
Qed.

(** X9: from a well-formed need table, each fulfillment record's response
    duration is 24 hours for every day from the request date to the
    matched date, and 1 when the matched date is not later; its
    fulfillment duration is the same from the matched date to the
    fulfilled date.  So a duration is 1 or a positive multiple of 24,
    never in between. *)
Theorem deriver_durations_count_days needs_df g :
  well_formed needs_df = true ->
  exists fs g',
    generate_fulfillments needs_df g = Ok (fs, g') /\
    (forall k need f,
       filter (fun need => completed need = true) needs_df !! k = Some need ->
       fs !! k = Some f -> fulfillment_durations need f) /\
    Forall (fun f =>
      (Fulfillment.response_time_hours f = 1 \/
       exists d, 0 < d /\ Fulfillment.response_time_hours f = 24 * d) /\
      (Fulfillment.fulfillment_time_hours f = 1 \/
       exists d, 0 < d /\ Fulfillment.fulfillment_time_hours f = 24 * d)) fs.
Proof.
  intros Hwf.
  destruct (generate_fulfillments_full_rows needs_df g Hwf)
    as (fs & g' & Heq & Hlen & Hall).
  exists fs, g'. split; [exact Heq |]. split.
  - intros k need f Hneed Hf. destruct (Hall k f Hf) as (need' & Hneed' & _ & Hd).
    rewrite Hneed in Hneed'. injection Hneed' as <-. exact Hd.
  - apply Forall_lookup. intros k f Hf.
    destruct (Hall k f Hf) as (need & _ & _ & Hr & Hfd).
    destruct Hr as (a & b & _ & _ & ->). destruct Hfd as (c & d & _ & _ & ->).
    split.
    + destruct (Z_le_gt_dec (b - a) 0);
        [left; lia | right; exists (b - a); lia].
    + destruct (Z_le_gt_dec (d - c) 0);
        [left; lia | right; exists (d - c); lia].
Qed.

(** The statement of X9 on [example_needs]. *)
Lemma deriver_durations_count_days_example :
  exists fs g',
    generate_fulfillments example_needs (const_rng 0) = Ok (fs, g') /\
    (forall k need f,
       filter (fun need => completed need = true) example_needs !! k = Some need ->
       fs !! k = Some f -> fulfillment_durations need f) /\
    Forall (fun f =>
      (Fulfillment.response_time_hours f = 1 \/
       exists d, 0 < d /\ Fulfillment.response_time_hours f = 24 * d) /\
      (Fulfillment.fulfillment_time_hours f = 1 \/
       exists d, 0 < d /\ Fulfillment.fulfillment_time_hours f = 24 * d)) fs.
Proof.
  apply (deriver_durations_count_days example_needs (const_rng 0)).
  vm_compute. reflexivity.
Defined.

(** On a table with rows that is not well formed the deriver raises at
    the first completed row whose dates do not all read. *)
Lemma generate_fulfillments_ill_formed r rest g :
  well_formed (r :: rest) = false ->
  generate_fulfillments (r :: rest) g = Raise ValueError /\
  exists need, need ∈ r :: rest /\ completed need = true /\
               dates_parse need = false.
Proof.
  intros Hwf. unfold well_formed in Hwf. cbn [length Nat.eqb negb andb] in Hwf.
  destruct (forallb_false_elem _ _ Hwf) as (need & Hin & Hbad).
  destruct (completed need) eqn:Hdone; [| discriminate Hbad].
  destruct (dates_parse need) eqn:Hdates; [discriminate Hbad |].
  split; [| exists need; auto].
  apply list_elem_of_lookup in Hin as [i Hi].
  rewrite generate_fulfillments_unfold. unfold bind, column, ret.
  apply (for_append_raises _ _ (fun row => dates_parse (snd row) = false)).
  - intros acc row _. eapply triple_weaken; [apply fulfillment_row_outcome | |].
    + intros f [_ Hd]. rewrite Hd. discriminate.
    + intros e [He _]. exact He.
  - exists (i, need). split; [| exact Hdates].
    rewrite select_rows_from. apply select_from_elem.
    replace (i - 0)%nat with i by lia. repeat split; [lia | exact Hi | exact Hdone].
Qed.

Lemma generate_fulfillments_no_completed needs_df g :
  needs_df <> [] ->
  Forall (fun need => completed need = false) needs_df ->
  generate_fulfillments needs_df g = Ok ([], g).
Proof.
  intros Hne Hall. rewrite generate_fulfillments_unfold.
  assert (select_rows completed needs_df = []) as ->.
  { apply (fmap_nil_inv snd). rewrite select_rows_from.
    change (snd <$> select_from completed 0 needs_df)
      with (map snd (select_from completed 0 needs_df)).
    rewrite select_from_snd. clear Hne.
    induction Hall as [|need rest Hneed _ IH]; [reflexivity |].
    rewrite filter_cons_False by congruence. exact IH. }
  destruct needs_df; [contradiction | reflexivity].
Qed.

(** X11: on a table that has rows but none "Fulfilled" or "Closed" the
    deriver returns the empty table and draws nothing from the
    generator. *)
Theorem deriver_without_completed_rows needs_df g :
  needs_df <> [] ->
  Forall (fun need => completed need = false) needs_df ->
  generate_fulfillments needs_df g = Ok ([], g).
Proof. exact (generate_fulfillments_no_completed needs_df g). Qed.

(** Whenever the deriver returns, it returns one record per completed
    row. *)
Lemma deriver_outcome_length needs_df g :
  match generate_fulfillments needs_df g with
  | Ok (fs, _) =>
      length fs = length (filter (fun need => completed need = true) needs_df)
  | Raise _ => True
  end.
Proof.
  destruct (well_formed needs_df) eqn:Hwf.
  - destruct (generate_fulfillments_full_rows needs_df g Hwf)
      as (fs & g' & -> & Hlen & _). exact Hlen.
  - destruct needs_df as [|r rest]; [exact I |].
    destruct (generate_fulfillments_ill_formed r rest g Hwf) as [-> _]. exact I.
Qed.

(** The statement of X11 on a table with one "Requested" row. *)
Lemma deriver_without_completed_rows_example :
  generate_fulfillments example_open_needs (const_rng 0) = Ok ([], const_rng 0).
Proof.
  apply (deriver_without_completed_rows example_open_needs (const_rng 0)).
  - discriminate.
  - repeat constructor.
Defined.

(** X12: the deriver reads the "Fulfilled" and "Closed" rows only: two
    tables that have rows and hold the same completed rows in the same
    order give the same result from the same generator state, whatever
    other rows lie between them. *)
Theorem deriver_reads_completed_rows_only needs1 needs2 g :
  needs1 <> [] -> needs2 <> [] ->
  filter (fun need => completed need = true) needs1
    = filter (fun need => completed need = true) needs2 ->
  generate_fulfillments needs1 g = generate_fulfillments needs2 g.
Proof.
  intros H1 H2 Hsame. rewrite !generate_fulfillments_unfold.
  destruct needs1 as [|r1 rest1]; [contradiction |].
  destruct needs2 as [|r2 rest2]; [contradiction |].
  unfold bind, column, ret.
  rewrite !for_append_snd, !select_rows_from, !select_from_snd, Hsame.
  reflexivity.
Qed.

(** The statement of X12 on [example_needs] with and without its
    "Requested" row. *)
Lemma deriver_reads_completed_rows_only_example :
  generate_fulfillments example_needs (const_rng 0)
  = generate_fulfillments example_closed_needs (const_rng 0).
Proof.
  apply (deriver_reads_completed_rows_only example_needs example_closed_needs).
  - discriminate.
  - discriminate.
  - reflexivity.
Defined.

(** X13: from a well-formed need table the fulfillment records have
    pairwise distinct identifiers ("FH" and the position from 1, on five
    digits) and every donor rating is 4 or 5. *)
Theorem fulfillment_ids_distinct needs_df g :
  well_formed needs_df = true ->
  exists fs g',
    generate_fulfillments needs_df g = Ok (fs, g') /\
    NoDup (Fulfillment.fulfillment_id <$> fs) /\
    Forall (fun f => Fulfillment.donor_rating f = 4 \/
                     Fulfillment.donor_rating f = 5) fs.
Proof.
  intros Hwf.
  destruct (generate_fulfillments_full_rows needs_df g Hwf)
    as (fs & g' & Heq & _ & Hall).
  exists fs, g'. split; [exact Heq |]. split.
  - apply (NoDup_numbered fs Fulfillment.fulfillment_id "FH" 5).
    intros k f Hf. destruct (Hall k f Hf) as (need & _ & Hof & _).
    destruct Hof as (Hid & _). rewrite Hid, Nat.add_1_r. reflexivity.
  - apply Forall_lookup. intros k f Hf.
    destruct (Hall k f Hf) as (need & _ & Hof & _).
    unfold fulfillment_of in Hof.
    assert (4 <= Fulfillment.donor_rating f <= 5) by tauto. lia.
Qed.

(** The statement of X13 on [example_needs]. *)
Lemma fulfillment_ids_distinct_example :
  exists fs g',
    generate_fulfillments example_needs (const_rng 0) = Ok (fs, g') /\
    NoDup (Fulfillment.fulfillment_id <$> fs) /\
    Forall (fun f => Fulfillment.donor_rating f = 4 \/
                     Fulfillment.donor_rating f = 5) fs.
Proof.
  apply (fulfillment_ids_distinct example_needs (const_rng 0)).
  vm_compute. reflexivity.
Defined.

(** ** The whole pipeline, table against table *)

Lemma completed_progressed (r : Need.t) :
  completed r = true -> isin (Need.status r) progressed = true.
Proof.
  unfold completed. rewrite !isin_elem. unfold progressed.
  rewrite !elem_of_cons. tauto.
Qed.

Lemma generate_all_parts n_donors n_churches n_needs :
  triple (generate_all (S n_donors) (S n_churches) (S n_needs))
         (pipeline_inv (S n_donors) (S n_churches) (S n_needs)) no_exn.
Proof.
  unfold generate_all.
  eapply triple_bind; [apply generate_donors_spec |]. intros ds [Hds Hdinv].
  eapply triple_bind; [apply generate_churches_spec |]. intros cs [Hcs Hcinv].
  eapply triple_bind.
  { eapply triple_weaken; [apply generate_needs_spec | intros a Ha; exact Ha |].
    intros e [_ [H | H]]; injection H as ->; simpl in *; lia. }
  intros rows [Hrows Hninv].
  assert (well_formed rows = true) as Hwf.
  { unfold well_formed. apply andb_true_intro. split.
    - rewrite Hrows. reflexivity.
    - apply forallb_forall. intros r Hr.
      apply list_elem_of_In, list_elem_of_lookup in Hr as [k Hk].
      destruct (completed r) eqn:Hdone; [| reflexivity]. cbn [implb].
      apply (need_inv_dates_parse _ _ _ _ (Hninv k r Hk) Hdone). }
  eapply triple_bind; [apply generate_fulfillments_full; exact Hwf |].
  intros fs [Hlen Hfs]. apply triple_ret. unfold pipeline_inv.
  cbn [donors churches needs fulfillments]. auto 10.
Qed.

(** The stored dates of a completed need: the matched date is at most two
    days after the request date and the fulfilled date at most five days
    after the matched date. *)
Lemma completed_need_days donors_df churches_df i r :
  need_inv donors_df churches_df i r -> completed r = true ->
  exists D j1 j2,
    0 <= j1 <= 2 /\ 0 <= j2 <= 5 /\
    calendar.to_timestamp (Need.request_date r) = Some (86400 * D) /\
    Need.matched_date r ≫= calendar.to_timestamp = Some (86400 * (D + j1)) /\
    Need.fulfilled_date r ≫= calendar.to_timestamp
      = Some (86400 * (D + j1 + j2)).
Proof.
  intros Hinv Hdone. pose proof (completed_progressed r Hdone) as Hp.
  destruct Hinv as (_ & _ & days & v & Hdays & Hv & Hq & Hm & Hf & _).
  unfold lifecycle_inv in Hv. unfold completed in Hdone. unfold progressed in Hp.
  rewrite Hp, Hdone in Hv.
  destruct Hv as (h & Hh & Hmv & _ & _ & h' & Hh' & Hfv).
  rewrite Hmv in Hm. rewrite Hfv in Hf.
  cbn [fmap option_fmap option_map] in Hm, Hf.
  pose proof base_date_eq as Hb.
  set (tq := base_date + 24 * days) in *.
  assert (tq = 24 * (19723 + days)) as Htq by (unfold tq; lia).
  exists (19723 + days), ((tq + h) / 24 - (19723 + days)),
         ((tq + h + h') / 24 - (tq + h) / 24).
  assert (tq / 24 = 19723 + days) as Hd0.
  { rewrite Htq, Z.mul_comm. apply Z.div_mul. lia. }
  split; [rewrite Htq; Z.div_mod_to_equations; lia |].
  split; [rewrite Htq; Z.div_mod_to_equations; lia |].
  rewrite Hq, Hm, Hf. cbn [mbind option_bind].
  rewrite !strftime_roundtrip by lia. rewrite Hd0.
  split; [reflexivity |]. split; do 2 f_equal; lia.
Qed.

(** X14: in a pipeline run (with at least one donor, church and need)
    every need that carries an assigned donor or church names a row of
    the donor or church table of the same run, and every fulfillment
    record names a donor and a church of those tables and a need of the
    need table whose status is "Fulfilled" or "Closed". *)
Theorem pipeline_references_resolve n_donors n_churches n_needs g :
  exists out g',
    generate_all (S n_donors) (S n_churches) (S n_needs) g = Ok (out, g') /\
    Forall (fun r =>
      (forall d, Need.assigned_donor_id r = Some d ->
                 d ∈ Donor.donor_id <$> donors out) /\
      (forall c, Need.assigned_church_id r = Some c ->
                 c ∈ Church.church_id <$> churches out)) (needs out) /\
    Forall (fun f =>
      (exists d, Fulfillment.donor_id f = Some d /\
                 d ∈ Donor.donor_id <$> donors out) /\
      (exists c, Fulfillment.church_id f = Some c /\
                 c ∈ Church.church_id <$> churches out) /\
      (exists need, need ∈ needs out /\ completed need = true /\
                    Fulfillment.need_id f = Need.need_id need))
      (fulfillments out).
Proof.
  destruct (triple_returns _ _ (generate_all_parts n_donors n_churches n_needs) g)
    as (out & g' & Heq & _ & _ & _ & _ & _ & Hninv & Hlen & Hfs).
  exists out, g'. split; [exact Heq |]. split.
  - apply Forall_lookup. intros k r Hr. specialize (Hninv k r Hr).
    destruct (isin (Need.status r) progressed) eqn:Hp.
    + destruct (need_inv_progressed _ _ _ _ Hninv Hp)
        as (_ & (d & Hd & Hdin) & (c & Hc & Hcin)).
      split; intros x Hx;
        [rewrite Hd in Hx; injection Hx as <-; exact Hdin
        | rewrite Hc in Hx; injection Hx as <-; exact Hcin].
    + destruct (need_inv_rest _ _ _ _ Hninv Hp) as (_ & _ & Hd & Hc).
      split; intros x Hx; congruence.
  - apply Forall_lookup. intros k f Hf.
    destruct (lookup_lt_is_Some_2 (select_rows completed (needs out)) k)
      as [[i need] Hrow].
    { rewrite <- Hlen. apply lookup_lt_Some in Hf. exact Hf. }
    destruct (Hfs k _ f Hrow Hf) as [Hof _]. cbn [snd] in Hof.
    assert ((i, need) ∈ select_from completed 0 (needs out)) as Hin
      by (apply list_elem_of_lookup; eauto).
    apply select_from_elem in Hin as (_ & Hi & Hdone).
    replace (i - 0)%nat with i in Hi by lia.
    destruct (need_inv_progressed _ _ _ _ (Hninv i need Hi)
                (completed_progressed need Hdone))
      as (_ & (d & Hd & Hdin) & (c & Hc & Hcin)).
    unfold fulfillment_of in Hof.
    destruct Hof as (_ & Hnid & Hdid & Hcid & _).
    split; [exists d; rewrite Hdid; auto |].
    split; [exists c; rewrite Hcid; auto |].
    exists need. split; [apply list_elem_of_lookup; eauto | auto].
Qed.

(** X15: in a pipeline run (with at least one donor, church and need)
    every response duration is 1, 24 or 48 hours and every fulfillment
    duration is 1, 24, 48, 72, 96 or 120 hours: the dates are stored
    without their hour, so the offsets of 1 to 48 and 1 to 120 hours come
    back as whole days, and a same-day step as 1. *)
Theorem pipeline_durations_are_whole_days n_donors n_churches n_needs g :
  exists out g',
    generate_all (S n_donors) (S n_churches) (S n_needs) g = Ok (out, g') /\
    Forall (fun f =>
      Fulfillment.response_time_hours f ∈ [1; 24; 48] /\
      Fulfillment.fulfillment_time_hours f ∈ [1; 24; 48; 72; 96; 120])
      (fulfillments out).
Proof.
  destruct (triple_returns _ _ (generate_all_parts n_donors n_churches n_needs) g)
    as (out & g' & Heq & _ & _ & _ & _ & _ & Hninv & Hlen & Hfs).
  exists out, g'. split; [exact Heq |].
  apply Forall_lookup. intros k f Hf.
  destruct (lookup_lt_is_Some_2 (select_rows completed (needs out)) k)
    as [[i need] Hrow].
  { rewrite <- Hlen. apply lookup_lt_Some in Hf. exact Hf. }
  destruct (Hfs k _ f Hrow Hf) as [_ [Hr Hfd]]. cbn [snd] in Hr, Hfd.
  assert ((i, need) ∈ select_from completed 0 (needs out)) as Hin
    by (apply list_elem_of_lookup; eauto).
  apply select_from_elem in Hin as (_ & Hi & Hdone).
  replace (i - 0)%nat with i in Hi by lia.
  destruct (completed_need_days _ _ _ _ (Hninv i need Hi) Hdone)
    as (D & j1 & j2 & Hj1 & Hj2 & Hq & Hm & Hfl).
  destruct Hr as (a & b & Ha & Hb & ->). destruct Hfd as (c & d & Hc & Hd & ->).
  cbn [mbind option_bind] in Ha. rewrite Hq in Ha. rewrite Hm in Hb, Hc.
  rewrite Hfl in Hd.
  injection Ha as Ha. injection Hb as Hb. injection Hc as Hc. injection Hd as Hd.
  rewrite !elem_of_cons. lia.
Qed.

(** X16: a pipeline run that asks for no needs raises [KeyError],
    whatever the other counts: the empty need table has no status column
    for the deriver to read. *)
Theorem pipeline_without_needs_raises n_donors n_churches g :
  generate_all n_donors n_churches 0 g = Raise KeyError.
Proof.
  unfold generate_all, bind.
  destruct (triple_returns _ _ (generate_donors_spec n_donors) g)
    as (ds & g1 & -> & _).
  destruct (triple_returns _ _ (generate_churches_spec n_churches) g1)
    as (cs & g2 & -> & _).
  reflexivity.
Qed.

(** ** Runs without donors, and the first church names *)

(** X17: a pipeline run that asks for no donors (and at least one need)
    either raises [KeyError], when some need draws a status past
    "Requested", or returns an empty donor table, needs that are all
    "Requested" or "Cancelled" with no date and no assignment, and no
    fulfillment record. *)
Theorem pipeline_without_donors n_churches n_needs g :
  match generate_all 0 n_churches (S n_needs) g with
  | Ok (out, _) =>
      donors out = [] /\ fulfillments out = [] /\
      length (needs out) = S n_needs /\
      Forall (fun r =>
        (Need.status r = "Requested" \/ Need.status r = "Cancelled")%string /\
        lifecycle_unset r) (needs out)
  | Raise e => e = KeyError
  end.
Proof.
  unfold generate_all, bind.
  change (generate_donors 0 g) with (@Ok (list Donor.t * rng) ([], g)).
  destruct (triple_returns _ _ (generate_churches_spec n_churches) g)
    as (cs & g1 & -> & _).
  pose proof (generate_needs_rows (S n_needs) (Some []) (Some cs) g1) as H.
  destruct (generate_needs (S n_needs) (Some []) (Some cs) g1)
    as [[rows g2]|e]; [| exact (proj1 H)].
  destruct H as [Hlen Hall].
  assert (Forall (fun r =>
            (Need.status r = "Requested" \/ Need.status r = "Cancelled")%string /\
            lifecycle_unset r) rows) as Hopen.
  { eapply Forall_impl; [exact Hall |]. intros r [i Hr].
    pose proof Hr as (_ & Hst & _).
    destruct (status_cases _ Hst) as [[Hs Hp] | Hp].
    - split; [exact Hs | exact (need_inv_rest _ _ _ _ Hr Hp)].
    - destruct (need_inv_progressed _ _ _ _ Hr Hp) as (_ & (x & _ & Hx) & _).
      inversion Hx. }
  rewrite (generate_fulfillments_no_completed rows g2).
  - cbn [ret donors fulfillments needs]. auto.
  - intros ->. discriminate Hlen.
  - eapply Forall_impl; [exact Hopen |]. intros r [[Hs | Hs] _];
      unfold completed; rewrite Hs; reflexivity.
Qed.

Lemma church_names_NoDup : NoDup church_names.
Proof. apply (bool_decide_unpack (NoDup church_names)). vm_compute. exact I. Qed.

(** X18: as long as at most twelve churches are generated their names are
    pairwise distinct: each takes a different entry of the fixed name
    list, and no city is appended. *)
Theorem first_twelve_church_names_distinct n g :
  (n <= 12)%nat ->
  exists rows g',
    generate_churches n g = Ok (rows, g') /\
    NoDup (Church.name <$> rows) /\
    Forall (fun r => Church.name r ∈ church_names) rows.
Proof.
  intros Hn.
  destruct (triple_returns _ _ (generate_churches_spec n) g)
    as (rows & g' & Heq & Hlen & Hall).
  assert (forall k r, rows !! k = Some r ->
            church_names !! (S k mod 12)%nat = Some (Church.name r)) as Hname.
  { intros k r Hr. destruct (Hall k r Hr) as (_ & _ & base & Hb & Hnm).
    rewrite church_names_length in Hb, Hnm.
    apply lookup_lt_Some in Hr.
    destruct (Nat.ltb_spec 12 (S k)); [lia |]. rewrite Hnm. exact Hb. }
  exists rows, g'. split; [exact Heq |]. split.
  - apply NoDup_alt. intros i j x Hi Hj. rewrite list_lookup_fmap in Hi, Hj.
    destruct (rows !! i) as [ri|] eqn:Ei; [| discriminate].
    destruct (rows !! j) as [rj|] eqn:Ej; [| discriminate].
    cbn in Hi, Hj. injection Hi as Hi. injection Hj as Hj.
    pose proof (Hname _ _ Ei) as Hni. pose proof (Hname _ _ Ej) as Hnj.
    rewrite Hi in Hni. rewrite Hj in Hnj.
    pose proof (NoDup_lookup _ _ _ _ church_names_NoDup Hni Hnj) as Hmod.
    apply lookup_lt_Some in Ei, Ej.
    revert Hmod. generalize (Nat.div_mod_eq (S i) 12) (Nat.div_mod_eq (S j) 12).
    generalize (Nat.mod_upper_bound (S i) 12) (Nat.mod_upper_bound (S j) 12).
    set (qi := (S i / 12)%nat). set (qj := (S j / 12)%nat).
    set (ri' := (S i mod 12)%nat). set (rj' := (S j mod 12)%nat).
    intros. subst. nia.
  - apply Forall_lookup. intros k r Hr.
    apply list_elem_of_lookup. eexists. exact (Hname k r Hr).
Qed.

(** The statement of X18 for twelve churches. *)
Lemma first_twelve_church_names_distinct_example :
  exists rows g',
    generate_churches 12 (const_rng 2) = Ok (rows, g') /\
    NoDup (Church.name <$> rows) /\
    Forall (fun r => Church.name r ∈ church_names) rows.
Proof.
  apply (first_twelve_church_names_distinct 12 (const_rng 2)). lia.
Defined.

(** ** Use of the generator *)

Lemma advances_ret {A} (a : A) : advances (ret a) 0.
Proof. intros g. simpl. split; [reflexivity | lia]. Qed.

Lemma advances_raise {A} (e : exn) n : advances (@raise A e) n.
Proof. intros g. exact I. Qed.

Lemma advances_bind {A B} (m : M A) (k : A -> M B) (a b : nat) :
  advances m a -> (forall x, advances (k x) b) ->
  advances (x <- m ;; k x) (a + b).
Proof.
  intros Hm Hk g. unfold bind. specialize (Hm g).
  destruct (m g) as [[x g1]|e]; [| exact I].
  specialize (Hk x g1). destruct (k x g1) as [[y g2]|e]; [| exact I].
  destruct Hm as [Ht1 Hp1], Hk as [Ht2 Hp2]. split; [congruence | lia].
Qed.

Lemma advances_randbelow n : advances (random.randbelow n) 1.
Proof. intros g. simpl. split; [reflexivity | lia]. Qed.

Lemma advances_randint a b : advances (random.randint a b) 1.
Proof.
  unfold random.randint. destruct (0 <? b + 1 - a); [| apply advances_raise].
  apply (advances_bind _ _ 1 0); [apply advances_randbelow |].
  intros j. apply advances_ret.
Qed.

Lemma advances_choice {A} (l : list A) : advances (random.choice l) 1.
Proof.
  destruct l as [|x l]; [apply advances_raise |]. unfold random.choice.
  apply (advances_bind _ _ 1 0); [apply advances_randbelow |].
  intros j. apply advances_ret.
Qed.

Lemma advances_getindex {A} (l : list A) i : advances (getindex l i) 0.
Proof.
  unfold getindex. destruct (l !! i); [apply advances_ret | apply advances_raise].
Qed.

Lemma advances_pd_to_datetime v : advances (pd_to_datetime v) 0.
Proof.
  destruct v as [s|]; simpl; [| apply advances_ret].
  destruct (calendar.to_timestamp s); [apply advances_ret | apply advances_raise].
Qed.

Lemma advances_whole_hours a b : advances (whole_hours a b) 0.
Proof.
  destruct a, b; simpl; first [apply advances_ret | apply advances_raise].
Qed.

Lemma advances_for_append {A B} (xs : list A) (body : list B -> A -> M B)
    (c : nat) :
  (forall acc x, advances (body acc x) c) ->
  forall acc, advances (for_append xs body acc) (length xs * c).
Proof.
  intros Hbody. induction xs as [|x xs IH]; intros acc.
  - apply advances_ret.
  - cbn [for_append length]. replace (S (length xs) * c)%nat
      with (c + length xs * c)%nat by lia.
    apply advances_bind; [apply Hbody | intros b; apply IH].
Qed.

(** X19: the church generator makes exactly five draws for each church
    and leaves the generator's sequence as it is; what follows it in a run
    therefore sees the generator [5 * n] positions further. *)
Theorem church_generator_draws n g :
  exists rows g',
    generate_churches n g = Ok (rows, g') /\
    tape g' = tape g /\ pos g' = (pos g + 5 * n)%nat.
Proof.
  destruct (triple_returns _ _ (generate_churches_spec n) g)
    as (rows & g' & Heq & _).
  exists rows, g'. split; [exact Heq |].
  assert (advances (generate_churches n) (length (range1 n) * 5)) as Hadv.
  { unfold generate_churches. apply advances_for_append. intros acc i.
    apply (advances_bind _ _ 1 4); [apply advances_choice |]. intros city.
    apply (advances_bind _ _ 0 4); [apply advances_getindex |]. intros base.
    apply (advances_bind _ _ 1 3); [apply advances_choice |]. intros zip.
    apply (advances_bind _ _ 1 2); [apply advances_randint |]. intros phone.
    apply (advances_bind _ _ 1 1); [apply advances_randint |]. intros vol.
    apply (advances_bind _ _ 1 0); [apply advances_randint |]. intros total.
    apply advances_ret. }
  specialize (Hadv g). rewrite Heq in Hadv.
  unfold range1 in Hadv. rewrite length_seq in Hadv.
  destruct Hadv as [Ht Hp]. split; [exact Ht | lia].
Qed.

(** X20: whenever the deriver returns, it has made exactly one draw (the
    rating) for each fulfillment record and has left the generator's
    sequence as it is. *)
Theorem deriver_draws needs_df g :
  match generate_fulfillments needs_df g with
  | Ok (fs, g') =>
      tape g' = tape g /\ pos g' = (pos g + length fs)%nat /\
      length fs = length (filter (fun need => completed need = true) needs_df)
  | Raise _ => True
  end.
Proof.
  assert (advances (generate_fulfillments needs_df)
            (0 + length (select_rows completed needs_df) * 1)) as Hadv.
  { rewrite generate_fulfillments_unfold. apply advances_bind.
    - destruct needs_df; [apply advances_raise | apply advances_ret].
    - intros status. apply advances_for_append. intros acc row.
      unfold fulfillment_row.
      apply (advances_bind _ _ 0 1); [apply advances_pd_to_datetime |]. intros tq.
      apply (advances_bind _ _ 0 1); [apply advances_pd_to_datetime |]. intros tm.
      apply (advances_bind _ _ 0 1); [apply advances_pd_to_datetime |]. intros tf.
      apply (advances_bind _ _ 0 1); [apply advances_whole_hours |]. intros h1.
      apply (advances_bind _ _ 0 1); [apply advances_whole_hours |]. intros h2.
      apply (advances_bind _ _ 1 0); [apply advances_randint |]. intros rating.
      apply advances_ret. }
  specialize (Hadv g).
  pose proof (deriver_outcome_length needs_df g) as Hlen.
  destruct (generate_fulfillments needs_df g) as [[fs g']|e]; [| exact I].
  destruct Hadv as [Ht Hp].
  assert (length (select_rows completed needs_df)
          = length (filter (fun need => completed need = true) needs_df)) as Hsel.
  { rewrite select_rows_from, <- (select_from_snd completed needs_df 0).
    symmetry. apply length_map. }
  split; [exact Ht |]. split; [lia | exact Hlen].
Qed.

(** ** The need generator on frames *)

Lemma bind_bind {A B C} (m : M A) (k : A -> M B) (f : B -> M C) g :
  bind (bind m k) f g = bind m (fun a => bind (k a) f) g.
Proof. unfold bind. destruct (m g) as [[a g']|e]; reflexivity. Qed.

Lemma bind_cong {A B} (m m' : M A) (k k' : A -> M B) g :
  m g = m' g -> (forall a g', k a g' = k' a g') -> bind m k g = bind m' k' g.
Proof.
  intros Hm Hk. unfold bind. rewrite Hm.
  destruct (m' g) as [[a g']|e]; [apply Hk | reflexivity].
Qed.

(** On the frame [pd.DataFrame] builds from a list of rows, the lookups
    on frames are those on lists of rows. *)
Lemma assign_as_frame {A} (col : A -> string) (df : option (list A)) g :
  assign col df g = frame_assign col (DataFrame <$> df) g.
Proof. destruct df as [[|x rows]|]; reflexivity. Qed.

Lemma lifecycle_as_frame status request_date donors_df churches_df g :
  lifecycle status request_date donors_df churches_df g =
  frame_lifecycle status request_date
    (DataFrame <$> donors_df) (DataFrame <$> churches_df) g.
Proof.
  unfold lifecycle, frame_lifecycle.
  destruct (isin status ["Matched"; "In Progress"; "Fulfilled"; "Closed"]);
    [| reflexivity].
  apply bind_cong; [reflexivity |]. intros h g1.
  apply bind_cong; [apply assign_as_frame |]. intros d g2.
  apply bind_cong; [apply assign_as_frame |]. intros c g3. reflexivity.
Qed.

Lemma for_append_rows {A T B} (xs : list A) (body : list B -> A -> M B)
    (body' : list (T * B) -> A -> M (T * B)) :
  (forall acc acc' x g,
     body acc x g = bind (body' acc' x) (fun p => ret (snd p)) g) ->
  forall acc' g,
    for_append xs body (snd <$> acc') g =
    bind (for_append xs body' acc') (fun trace => ret (snd <$> trace)) g.
Proof.
  intros Hbody. induction xs as [|x xs IH]; intros acc' g; [reflexivity |].
  cbn [for_append]. unfold bind. rewrite (Hbody (snd <$> acc') acc' x g).
  unfold bind, ret.
  destruct (body' acc' x g) as [[[t b] g1]|e]; cbn [snd]; [| reflexivity].
  specialize (IH (acc' ++ [(t, b)]) g1). rewrite fmap_app in IH.
  unfold bind, ret in IH. exact IH.
Qed.

(** [generate_needs] is [frame_generate_needs] on the frames
    [pd.DataFrame] builds from the tables' rows. *)
Lemma generate_needs_as_frame n donors_df churches_df g :
  generate_needs n donors_df churches_df g =
  frame_generate_needs n (DataFrame <$> donors_df) (DataFrame <$> churches_df) g.
Proof.
  unfold generate_needs, frame_generate_needs, generate_needs_traced.
  apply (for_append_rows (range1 n) _ _) with (acc' := []).
  intros acc acc' i g1. unfold need_iteration.
  repeat (rewrite bind_bind;
          apply bind_cong;
          [first [apply lifecycle_as_frame | reflexivity] |];
          intros ? ?; cbv beta zeta).
  reflexivity.
Qed.

Lemma frame_assign_spec {A} (col : A -> string) (df : option (frame A)) :
  triple (frame_assign col df) (frame_assigned_from col df) (no_rows df).
Proof.
  destruct df as [[|[|x rows]]|]; unfold frame_assign, frame_column.
  - intros g. left. split; reflexivity.
  - intros g. right. split; reflexivity.
  - eapply triple_bind; [apply (triple_ret _ (fun ids => ids = map col (x :: rows)));
                         reflexivity |].
    intros ids ->.
    eapply triple_bind; [apply choice_spec; discriminate |].
    intros y Hy. apply triple_ret. exists y. split; [reflexivity | exact Hy].
  - apply triple_ret. reflexivity.
Qed.

(** The donor lookup comes first: the church lookup is reached only when
    the donor lookup gave an assignment. *)
Lemma frame_lifecycle_spec status request_date donors_df churches_df
    (E : exn -> Prop) :
  (forall e, no_rows donors_df e -> E e) ->
  ((exists v, frame_assigned_from Donor.donor_id donors_df v) ->
   forall e, no_rows churches_df e -> E e) ->
  triple (frame_lifecycle status request_date donors_df churches_df)
         (frame_lifecycle_inv status request_date donors_df churches_df) E.
Proof.
  intros HEd HEc. unfold frame_lifecycle, frame_lifecycle_inv.
  destruct (isin status ["Matched"; "In Progress"; "Fulfilled"; "Closed"]);
    [| apply triple_ret; reflexivity].
  eapply triple_bind; [apply randint_spec; lia |]. intros h Hh.
  eapply triple_bind;
    [eapply triple_weaken; [apply frame_assign_spec | intros a Ha; exact Ha | exact HEd] |].
  intros d Hd.
  eapply triple_bind;
    [eapply triple_weaken; [apply frame_assign_spec | intros a Ha; exact Ha |] |].
  { apply HEc. exists d. exact Hd. }
  intros c Hc. unfold calendar.timedelta_hours.
  destruct (isin status ["Fulfilled"; "Closed"]).
  - eapply (triple_bind _ _
      (fun f => exists x, 1 <= x <= 120 /\ f = Some (request_date + h + x)));
      [eapply triple_bind; [apply randint_spec; lia |] |].
    + intros h' Hh'. apply triple_ret. exists h'. split; [exact Hh' | reflexivity].
    + intros f (h' & Hh' & ->). apply triple_ret.
      exists h. cbn [fst snd]. eauto 10.
  - eapply (triple_bind _ _ (fun f => f = None)); [apply triple_ret; reflexivity |].
    intros f ->. apply triple_ret. exists h. cbn [fst snd]. eauto 10.
Qed.

Lemma generate_needs_traced_spec n donors_df churches_df (E : exn -> Prop) :
  (forall e, no_rows donors_df e -> E e) ->
  ((exists v, frame_assigned_from Donor.donor_id donors_df v) ->
   forall e, no_rows churches_df e -> E e) ->
  triple (generate_needs_traced n donors_df churches_df)
    (fun trace => length trace = n /\
                  forall k entry, trace !! k = Some entry ->
                    need_iteration_inv donors_df churches_df (S k) entry)
    E.
Proof.
  intros HEd HEc. unfold generate_needs_traced.
  apply triple_range1. intros acc i Hi. unfold need_iteration.
  eapply triple_bind; [apply choice_spec; discriminate |]. intros category Hcat.
  eapply triple_bind; [apply getitem_spec; exact Hcat |]. intros items Hitems.
  eapply triple_bind;
    [apply choice_spec; exact (need_categories_items _ _ Hitems) |].
  intros item _.
  eapply triple_bind; [apply choice_spec; discriminate |]. intros city Hcity.
  eapply triple_bind; [apply randint_spec; lia |]. intros days Hdays.
  eapply triple_bind; [apply choice_spec; discriminate |]. intros status Hstatus.
  eapply triple_bind; [apply frame_lifecycle_spec; assumption |]. intros v Hv.
  eapply triple_bind; [apply randint_spec; lia |]. intros quantity _.
  eapply triple_bind; [apply choice_spec; discriminate |]. intros urgency _.
  eapply triple_bind; [apply randint_spec; lia |]. intros family _.
  eapply triple_bind; [apply choice_spec; exact (cities_zips _ Hcity) |].
  intros zip_code _.
  eapply triple_bind; [apply random_spec |]. intros r _.
  apply triple_ret. unfold need_iteration_inv.
  cbn [fst snd Need.need_id Need.status Need.request_date Need.matched_date
       Need.fulfilled_date Need.assigned_donor_id Need.assigned_church_id
       Computed.request_date Computed.matched_date Computed.fulfilled_date].
  unfold calendar.timedelta_days in *.
  split; [reflexivity |]. split; [exact Hstatus |].
  split; [exists days; split; [exact Hdays | reflexivity] |].
  split; [reflexivity |]. split; [reflexivity |]. split; [reflexivity |].
  destruct v as [[[m f] d] c]. exact Hv.
Qed.

(** Every run of the need generator on frames. *)
Lemma frame_generate_needs_rows n donors_df churches_df (E : exn -> Prop) g :
  (forall e, no_rows donors_df e -> E e) ->
  ((exists v, frame_assigned_from Donor.donor_id donors_df v) ->
   forall e, no_rows churches_df e -> E e) ->
  match frame_generate_needs n donors_df churches_df g with
  | Ok (rows, _) =>
      length rows = n /\
      Forall (fun r => exists i t,
                need_iteration_inv donors_df churches_df i (t, r)) rows
  | Raise e => E e
  end.
Proof.
  intros HEd HEc.
  pose proof (generate_needs_traced_spec n donors_df churches_df E HEd HEc g) as H.
  unfold frame_generate_needs, bind.
  destruct (generate_needs_traced n donors_df churches_df g) as [[trace g']|e];
    [| exact H].
  destruct H as [Hlen Hall]. cbn [ret]. split; [rewrite length_fmap; exact Hlen |].
  apply Forall_lookup. intros k r Hr.
  rewrite list_lookup_fmap in Hr.
  destruct (trace !! k) as [[t r']|] eqn:Hk; [| discriminate Hr].
  injection Hr as <-. exists (S k), t. apply (Hall k _ Hk).
Qed.

Lemma need_iteration_inv_rest donors_df churches_df i t r :
  need_iteration_inv donors_df churches_df i (t, r) ->
  isin (Need.status r) progressed = false -> lifecycle_unset r.
Proof.
  intros (_ & _ & _ & _ & Hm & Hf & Hv) Hs. cbn [fst snd] in *.
  unfold frame_lifecycle_inv in Hv. fold progressed in Hv. rewrite Hs in Hv.
  injection Hv as Hmt Hft Hd Hc. rewrite Hmt in Hm. rewrite Hft in Hf.
  repeat split; assumption.
Qed.

Lemma need_iteration_inv_progressed donors_df churches_df i t r :
  need_iteration_inv donors_df churches_df i (t, r) ->
  isin (Need.status r) progressed = true ->
  frame_assigned_from Donor.donor_id donors_df (Need.assigned_donor_id r) /\
  frame_assigned_from Church.church_id churches_df (Need.assigned_church_id r).
Proof.
  intros (_ & _ & _ & _ & _ & _ & Hv) Hs. cbn [fst snd] in *.
  unfold frame_lifecycle_inv in Hv. fold progressed in Hv. rewrite Hs in Hv.
  destruct Hv as (h & _ & _ & Hdv & Hcv & _). cbn [fst snd] in *.
  split; assumption.
Qed.

Lemma no_rows_empty_frame {A} (columns : bool) (e : exn) :
  no_rows (Some (@empty_frame A columns)) e ->
  e = if columns then IndexError else KeyError.
Proof.
  destruct columns; intros [[-> H] | [-> H]]; try reflexivity; discriminate H.
Qed.

(** The exception on a frame that keeps its columns, on the run of
    [empty_tables_refuted]. *)
Example empty_frames_with_columns :
  frame_generate_needs 10 (Some (Rows [])) (Some (Rows [])) (const_rng 1)
  = Raise IndexError.
Proof. vm_compute. reflexivity. Qed.

(** C1, amended: with the donor and church tables absent the call
    completes for every count and every row has its donor and church
    assignment unset, whatever its status.  With both tables present and
    without rows the call either raises, as soon as a row draws a status
    past "Requested" ([KeyError] when the donor frame has no columns, as
    [pd.DataFrame([])] has none, [IndexError] when it keeps them), or
    returns rows that all have status "Requested" or "Cancelled" and both
    assignments unset. *)
Theorem absent_tables_leave_needs_unassigned n g :
  (exists rows g',
     generate_needs n None None g = Ok (rows, g') /\
     length rows = n /\ Forall unassigned rows) /\
  generate_needs n (Some []) (Some []) g =
    frame_generate_needs n (Some NoColumns) (Some NoColumns) g /\
  forall donor_columns church_columns : bool,
    match frame_generate_needs n (Some (empty_frame donor_columns))
            (Some (empty_frame church_columns)) g with
    | Ok (rows, _) =>
        length rows = n /\
        Forall (fun r =>
          unassigned r /\
          (Need.status r = "Requested" \/ Need.status r = "Cancelled")%string) rows
    | Raise e => e = if donor_columns then IndexError else KeyError
    end.
Proof.
  split; [| split].
  - pose proof (generate_needs_rows n None None g) as H.
    destruct (generate_needs n None None g) as [[rows g']|e];
      [| destruct H as [_ [H | H]]; discriminate].
    destruct H as [Hlen Hall]. exists rows, g'. repeat split; [exact Hlen |].
    eapply Forall_impl; [exact Hall |]. intros r [i Hr].
    pose proof Hr as (_ & Hst & _).
    destruct (status_cases _ Hst) as [[_ Hp] | Hp].
    + destruct (need_inv_rest _ _ _ _ Hr Hp) as (_ & _ & Hd & Hc). split; assumption.
    + destruct (need_inv_progressed _ _ _ _ Hr Hp) as (_ & Hd & Hc). split; assumption.
  - apply (generate_needs_as_frame n (Some []) (Some []) g).
  - intros donor_columns church_columns.
    pose proof (frame_generate_needs_rows n
                  (Some (empty_frame donor_columns))
                  (Some (empty_frame church_columns))
                  (fun e => e = if donor_columns then IndexError else KeyError) g)
      as H.
    assert (forall v, ~ frame_assigned_from Donor.donor_id
                        (Some (@empty_frame Donor.t donor_columns)) v) as Hnone.
    { intros v (x & _ & Hx). destruct donor_columns; inversion Hx. }
    specialize (H (no_rows_empty_frame donor_columns)).
    specialize (H ltac:(intros [v Hv]; destruct (Hnone v Hv))).
    destruct (frame_generate_needs n (Some (empty_frame donor_columns))
                (Some (empty_frame church_columns)) g) as [[rows g']|e];
      [| exact H].
    destruct H as [Hlen Hall]. split; [exact Hlen |].
    eapply Forall_impl; [exact Hall |]. intros r (i & t & Hr).
    pose proof Hr as (_ & Hst & _). cbn [snd] in Hst.
    destruct (status_cases _ Hst) as [[Hs Hp] | Hp].
    + destruct (need_iteration_inv_rest _ _ _ _ _ Hr Hp) as (_ & _ & Hd & Hc).
      split; [split; assumption | exact Hs].
    + destruct (need_iteration_inv_progressed _ _ _ _ _ Hr Hp) as (Hd & _).
      destruct (Hnone _ Hd).
Qed.

(** C3, amended: for every generated need whose status is "Fulfilled" or
    "Closed", the datetimes the loop computes are strictly ordered, the
    matched one 1 to 48 hours after the request and the fulfilled one 1
    to 120 hours after the matched one; the row stores their calendar
    dates, and these are ordered without strictness: request date <=
    matched date <= fulfilled date.  The datetimes are those of the very
    iteration that built the row: the traced loop returns them next to
    the rows [generate_needs] returns. *)
Theorem fulfilled_needs_ordered n donors_df churches_df g :
  match generate_needs_traced n (DataFrame <$> donors_df)
          (DataFrame <$> churches_df) g with
  | Ok (trace, g') =>
      generate_needs n donors_df churches_df g = Ok (snd <$> trace, g') /\
      Forall (fun entry =>
        let t := fst entry in
        let r := snd entry in
        (Need.status r = "Fulfilled" \/ Need.status r = "Closed")%string ->
        exists tm tf,
          Computed.matched_date t = Some tm /\
          Computed.fulfilled_date t = Some tf /\
          Computed.request_date t + 1 <= tm <= Computed.request_date t + 48 /\
          tm + 1 <= tf <= tm + 120 /\
          Need.request_date r = calendar.strftime_ymd (Computed.request_date t) /\
          Need.matched_date r = Some (calendar.strftime_ymd tm) /\
          Need.fulfilled_date r = Some (calendar.strftime_ymd tf) /\
          stored_not_after (Need.request_date r) (calendar.strftime_ymd tm) /\
          stored_not_after (calendar.strftime_ymd tm) (calendar.strftime_ymd tf))
        trace
  | Raise e => generate_needs n donors_df churches_df g = Raise e
  end.
Proof.
  pose proof (generate_needs_as_frame n donors_df churches_df g) as Hrows.
  unfold frame_generate_needs, bind in Hrows.
  pose proof (generate_needs_traced_spec n (DataFrame <$> donors_df)
                (DataFrame <$> churches_df) (fun _ => True)
                (fun _ _ => I) (fun _ _ _ => I) g) as H.
  destruct (generate_needs_traced n (DataFrame <$> donors_df)
              (DataFrame <$> churches_df) g) as [[trace g']|e];
    [| exact Hrows].
  split; [exact Hrows |]. destruct H as [_ Hall].
  apply Forall_lookup. intros k [t r] Hk. cbn [fst snd]. intros Hs.
  destruct (Hall k _ Hk) as (_ & _ & (days & Hdays & Hq) & Hrq & Hm & Hf & Hv).
  cbn [fst snd] in *. unfold frame_lifecycle_inv in Hv.
  assert (isin (Need.status r) ["Matched"; "In Progress"; "Fulfilled"; "Closed"]
            = true /\ isin (Need.status r) ["Fulfilled"; "Closed"] = true)
    as [Hp Hd] by (destruct Hs as [-> | ->]; split; reflexivity).
  rewrite Hp, Hd in Hv. cbn [fst snd] in Hv.
  destruct Hv as (h & Hh & Hmv & _ & _ & h' & Hh' & Hfv).
  rewrite Hmv in Hm. rewrite Hfv in Hf.
  cbn [fmap option_fmap option_map] in Hm, Hf.
  set (tq := Computed.request_date t) in *.
  exists (tq + h), (tq + h + h').
  split; [exact Hmv |]. split; [exact Hfv |]. split; [lia |]. split; [lia |].
  split; [exact Hrq |]. split; [exact Hm |]. split; [exact Hf |].
  split.
  - rewrite Hrq. exists (86400 * (tq / 24)), (86400 * ((tq + h) / 24)).
    split; [apply strftime_roundtrip; lia |].
    split; [apply strftime_roundtrip; lia |].
    apply Z.mul_le_mono_nonneg_l; [lia |]. apply Z.div_le_mono; lia.
  - exists (86400 * ((tq + h) / 24)), (86400 * ((tq + h + h') / 24)).
    split; [apply strftime_roundtrip; lia |].
    split; [apply strftime_roundtrip; lia |].
    apply Z.mul_le_mono_nonneg_l; [lia |]. apply Z.div_le_mono; lia.
Qed.

(** X8: with both tables passed, a generated need carries an assigned
    donor exactly when its status is "Matched", "In Progress",
    "Fulfilled" or "Closed", and that donor is an identifier of the donor
    table passed in; likewise for the church.  A run raises only when one
    of the tables has no rows: [KeyError] when that frame has no columns
    either, [IndexError] when it keeps its columns. *)
Theorem assignments_refer_to_tables n (donors_df : frame Donor.t)
    (churches_df : frame Church.t) g :
  match frame_generate_needs n (Some donors_df) (Some churches_df) g with
  | Ok (rows, _) =>
      Forall (fun r =>
        match Need.assigned_donor_id r, Need.assigned_church_id r with
        | Some d, Some c =>
            Need.status r ∈ progressed /\
            d ∈ Donor.donor_id <$> frame_rows donors_df /\
            c ∈ Church.church_id <$> frame_rows churches_df
        | None, None => Need.status r ∉ progressed
        | _, _ => False
        end) rows
  | Raise e =>
      (e = KeyError /\ (donors_df = NoColumns \/ churches_df = NoColumns)) \/
      (e = IndexError /\ (donors_df = Rows [] \/ churches_df = Rows []))
  end.
Proof.
  pose proof (frame_generate_needs_rows n (Some donors_df) (Some churches_df)
                (fun e => no_rows (Some donors_df) e \/ no_rows (Some churches_df) e)
                g (fun e He => or_introl He) (fun _ e He => or_intror He)) as H.
  destruct (frame_generate_needs n (Some donors_df) (Some churches_df) g)
    as [[rows g']|e].
  - destruct H as [_ Hall]. eapply Forall_impl; [exact Hall |].
    intros r (i & t & Hr). destruct (isin (Need.status r) progressed) eqn:Hp.
    + destruct (need_iteration_inv_progressed _ _ _ _ _ Hr Hp)
        as ((d & -> & Hd) & (c & -> & Hc)).
      split; [apply isin_elem, Hp | split; assumption].
    + destruct (need_iteration_inv_rest _ _ _ _ _ Hr Hp) as (_ & _ & -> & ->).
      apply isin_not_elem, Hp.
  - destruct H as [[[-> H] | [-> H]] | [[-> H] | [-> H]]];
      injection H as ->; auto.
Qed.

(** ** The fulfillment deriver on frames *)

(** [generate_fulfillments] is [frame_generate_fulfillments] on the frame
    [pd.DataFrame] builds from the rows. *)
Lemma generate_fulfillments_as_frame needs_df g :
  generate_fulfillments needs_df g =
  frame_generate_fulfillments (DataFrame needs_df) g.
Proof. destruct needs_df; reflexivity. Qed.

Lemma dates_parse_has_dates (need : Need.t) :
  dates_parse need = true -> lacks_date need = false.
Proof.
  intros H. apply dates_parse_cases in H as (_ & [m Hm] & [f Hf]).
  unfold lacks_date.
  destruct (Need.matched_date need); [| discriminate Hm].
  destruct (Need.fulfilled_date need); [reflexivity | discriminate Hf].
Qed.

Lemma plain_dates_lacks_date (need : Need.t) :
  plain_dates need = true -> dates_parse need = false -> lacks_date need = true.
Proof.
  unfold plain_dates, plain_date, dates_parse, lacks_date.
  destruct (calendar.to_timestamp (Need.request_date need)); [| discriminate].
  destruct (Need.matched_date need) as [m|], (Need.fulfilled_date need) as [f|];
    cbn [mbind option_bind]; try (intros _ _; reflexivity).
  destruct (calendar.to_timestamp m), (calendar.to_timestamp f);
    cbn [andb]; intros H1 H2; first [discriminate H1 | discriminate H2].
Qed.

(** X10: on a need frame without columns, as [pd.DataFrame([])] is, the
    deriver raises [KeyError]; on a frame that keeps its columns and has
    no row it returns the empty table and draws nothing.  On a frame
    whose "Fulfilled" and "Closed" rows hold a "YYYY-MM-DD" request date
    and matched and fulfilled cells that are missing or "YYYY-MM-DD"
    dates, it returns exactly when none of these rows lacks its matched
    or fulfilled date, and raises otherwise. *)
Theorem deriver_outcome_on_frames g :
  frame_generate_fulfillments NoColumns g = Raise KeyError /\
  frame_generate_fulfillments (Rows []) g = Ok ([], g) /\
  forall rows,
    Forall (fun need => completed need = true -> plain_dates need = true) rows ->
    match frame_generate_fulfillments (Rows rows) g with
    | Ok (fs, _) =>
        Forall (fun need => completed need = true -> lacks_date need = false) rows
    | Raise _ =>
        Exists (fun need => completed need = true /\ lacks_date need = true) rows
    end.
Proof.
  split; [reflexivity |]. split; [reflexivity |].
  intros [|r rest] Hplain.
  { assert (frame_generate_fulfillments (Rows []) g = Ok ([], g)) as ->
      by reflexivity.
    constructor. }
  change (Rows (r :: rest)) with (DataFrame (r :: rest)).
  rewrite <- (generate_fulfillments_as_frame (r :: rest) g).
  destruct (well_formed (r :: rest)) eqn:Hwf.
  - destruct (triple_returns _ _ (generate_fulfillments_full _ Hwf) g)
      as (fs & g' & -> & _).
    apply andb_prop in Hwf as [_ Hall].
    apply Forall_forall. intros need Hin Hdone.
    apply dates_parse_has_dates.
    pose proof (proj1 (forallb_forall _ _) Hall need) as H.
    cbv beta in H. rewrite Hdone in H. apply H.
    apply list_elem_of_In, Hin.
  - destruct (generate_fulfillments_ill_formed r rest g Hwf)
      as [-> (need & Hin & Hdone & Hdates)].
    apply Exists_exists. exists need. split; [exact Hin |].
    split; [exact Hdone |]. apply plain_dates_lacks_date; [| exact Hdates].
    rewrite Forall_forall in Hplain. apply (Hplain need Hin Hdone).
Qed.

(** The three cases of X10 on sample tables: the completed row of
    [example_needs] with its dates, and without its fulfilled date. *)
Example deriver_outcome_examples :
  (exists fs g', frame_generate_fulfillments (Rows example_needs) (const_rng 0)
                 = Ok (fs, g') /\ length fs = 1%nat) /\
  (exists e, frame_generate_fulfillments (Rows example_undated_needs)
               (const_rng 0) = Raise e) /\
  forallb plain_dates example_needs = true /\
  forallb plain_dates example_undated_needs = true.
Proof.
  split; [eexists _, _; split; [vm_compute; reflexivity | reflexivity] |].
  split; [eexists; vm_compute; reflexivity |]. split; vm_compute; reflexivity.
Qed.

(** ** Dependence of the pipeline on the generator *)


























(** A computation that reads how many draws were made so far depends on
    more than the draws to come: the property is one of the program, not
    of every computation over the generator. *)
Example draws_only_fails :
  ~ draws_only (fun g => Ok (pos g, g)).
Proof.
  intros H. specialize (H (const_rng 3) (late_rng 3)).
  destruct H as [H _]; [intros k; reflexivity | discriminate H].
Qed.


